(** * AIBTCC-P2P: transactions, blocks and the chain

    A shallow embedding of the consensus core of the node
    (transaction.js, block.js, blockchain.js) together with the properties
    its specification states about it.

    Conventions.
    - A JavaScript string is the Rocq [string] of its UTF-8 bytes.
    - Integers that the code keeps in JS numbers (timestamps, nonces,
      indices, difficulties) are [Z]; they are printed in decimal when
      concatenated to a string, as JS does below 10^21.
    - [null] is [None]; a property that has not been assigned yet is
      [Undefined] (see [field]).
    - A method that can throw returns an [outcome]; methods of the chain
      singleton are computations in the monad [M] over the node state, in
      which a throw keeps the mutations made before it. *)

From Stdlib Require Import ZArith List String Ascii Lia Bool DecimalString.
From stdpp Require Import base gmap sets strings.
Import ListNotations.
Open Scope Z_scope.

(* ===================================================================== *)
(** ** JavaScript values and helpers                                       *)
(* ===================================================================== *)

Module Js.

(** Result of a call: a value, or an exception carrying its message. *)
Inductive outcome (A : Type) : Type :=
| Return (a : A)
| Throw (msg : string).
Arguments Return {A} a.
Arguments Throw {A} msg.

Definition bind {A B} (o : outcome A) (k : A -> outcome B) : outcome B :=
  match o with
  | Return a => k a
  | Throw m => Throw m
  end.

(** A property of an object: not assigned yet, [null], or a value. *)
Inductive field (A : Type) : Type :=
| Undefined
| Null
| Val (a : A).
Arguments Undefined {A}.
Arguments Null {A}.
Arguments Val {A} a.

(** A parameter with default [null]: what the constructor stores for an
    argument that is [null], missing, or a value. *)
Definition ofOption {A} (o : option A) : field A :=
  match o with
  | Some a => Val a
  | None => Null
  end.

(** Truthiness of a nullable string: [null] and the empty string are falsy. *)
Definition truthy (s : option string) : bool :=
  match s with
  | Some (String _ _) => true
  | _ => false
  end.

(** [s || ''] *)
Definition orEmpty (s : option string) : string :=
  match s with
  | Some x => x
  | None => ""
  end.

(** [s || null] *)
Definition orNull (s : option string) : option string :=
  if truthy s then s else None.

(** Number to string, as in [str + n] for an integer [n]. *)
Definition numberToString (n : Z) : string :=
  NilZero.string_of_int (Z.to_int n).

(** [s.substring(0, n)]: a negative [n] counts as 0, one past the end as
    the length. *)
Definition substring0 (n : Z) (s : string) : string :=
  String.substring 0 (Z.to_nat n) s.

Fixpoint repeatString (n : nat) (c : string) : string :=
  match n with
  | O => ""
  | S k => c +:+ repeatString k c
  end.

(** [Array(n).join(sep)]: [n] empty slots joined give [n - 1] separators;
    a negative length is a RangeError. *)
Definition arrayJoin (n : Z) (sep : string) : outcome string :=
  if n <? 0 then Throw "Invalid array length"
  else Return (repeatString (Z.to_nat (n - 1)) sep).

End Js.
Export Js.

(* ===================================================================== *)
(** ** crypto.createHash("sha256")                                         *)
(* ===================================================================== *)

Module Sha256.

Definition mask32 : Z := 4294967295.
Definition w32 (x : Z) : Z := Z.land x mask32.
Definition add32 (x y : Z) : Z := w32 (x + y).
Definition rotr (n x : Z) : Z :=
  Z.lor (Z.shiftr x n) (w32 (Z.shiftl x (32 - n))).
Definition shr (n x : Z) : Z := Z.shiftr x n.

Definition ch (x y z : Z) : Z :=
  Z.lxor (Z.land x y) (Z.land (Z.lxor x mask32) z).
Definition maj (x y z : Z) : Z :=
  Z.lxor (Z.lxor (Z.land x y) (Z.land x z)) (Z.land y z).
Definition bigSigma0 (x : Z) : Z :=
  Z.lxor (Z.lxor (rotr 2 x) (rotr 13 x)) (rotr 22 x).
Definition bigSigma1 (x : Z) : Z :=
  Z.lxor (Z.lxor (rotr 6 x) (rotr 11 x)) (rotr 25 x).
Definition smallSigma0 (x : Z) : Z :=
  Z.lxor (Z.lxor (rotr 7 x) (rotr 18 x)) (shr 3 x).
Definition smallSigma1 (x : Z) : Z :=
  Z.lxor (Z.lxor (rotr 17 x) (rotr 19 x)) (shr 10 x).

(** The constants are the first 32 bits of the fractional parts of the
    cube roots (round constants) and of the square roots (initial state) of
    the first primes. *)
Definition isPrime (n : Z) : bool :=
  (1 <? n) && forallb (fun d => negb (n mod d =? 0))
                      (map Z.of_nat (seq 2 (Z.to_nat (Z.sqrt n) - 1))).

Definition primesBelow (bound : nat) : list Z :=
  List.filter isPrime (map Z.of_nat (seq 0 bound)).

(** The greatest [r] between [low] and [high] whose cube is at most [n],
    when [low] is such a number and [high] is not. *)
Fixpoint cubeRootBetween (steps : nat) (low high n : Z) : Z :=
  match steps with
  | O => low
  | S k =>
      if high - low <=? 1 then low
      else
        let middle := (low + high) / 2 in
        if middle * middle * middle <=? n
        then cubeRootBetween k middle high n
        else cubeRootBetween k low middle n
  end.

Definition cubeRoot (n : Z) : Z := cubeRootBetween 200 0 (n + 1) n.

Definition roundConstants : list Z :=
  Eval vm_compute in
    map (fun p => w32 (cubeRoot (p * 2 ^ 96))) (primesBelow 312).

Definition initialState : list Z :=
  Eval vm_compute in
    map (fun p => w32 (Z.sqrt (p * 2 ^ 64))) (primesBelow 20).

(** Message padding: a 1 bit, zeros up to 56 mod 64, the bit length on 8
    bytes, big-endian. *)
Definition bigEndian (nbytes : nat) (x : Z) : list Z :=
  map (fun i => Z.land (Z.shiftr x (8 * Z.of_nat i)) 255) (rev (seq 0 nbytes)).

Definition pad (msg : list Z) : list Z :=
  let len := Z.of_nat (length msg) in
  let zeros := Z.to_nat ((55 - len) mod 64) in
  msg ++ [128] ++ repeat 0 zeros ++ bigEndian 8 (8 * len).

Fixpoint wordsOf (n : nat) (bytes : list Z) : list Z :=
  match n, bytes with
  | S k, a :: b :: c :: d :: rest =>
      (Z.shiftl a 24 + Z.shiftl b 16 + Z.shiftl c 8 + d) :: wordsOf k rest
  | _, _ => []
  end.

(** The 64-word message schedule of a 16-word block; [w] holds the words
    so far, most recent first. *)
Fixpoint schedule (n : nat) (w : list Z) : list Z :=
  match n with
  | O => rev w
  | S k =>
      let x := add32 (add32 (smallSigma1 (nth 1 w 0)) (nth 6 w 0))
                     (add32 (smallSigma0 (nth 14 w 0)) (nth 15 w 0)) in
      schedule k (x :: w)
  end.

Definition round (st : list Z) (kw : Z * Z) : list Z :=
  match st with
  | [a; b; c; d; e; f; g; h] =>
      let t1 := add32 (add32 (add32 h (bigSigma1 e)) (add32 (ch e f g) (fst kw))) (snd kw) in
      let t2 := add32 (bigSigma0 a) (maj a b c) in
      [add32 t1 t2; a; b; c; add32 d t1; e; f; g]
  | _ => st
  end.

Definition compress (st : list Z) (block : list Z) : list Z :=
  let w := schedule 48 (rev block) in
  let st' := fold_left round (combine roundConstants w) st in
  map (fun p => add32 (fst p) (snd p)) (combine st st').

Fixpoint blocks (n : nat) (st : list Z) (bytes : list Z) : list Z :=
  match n with
  | O => st
  | S k =>
      match bytes with
      | [] => st
      | _ => blocks k (compress st (wordsOf 16 bytes)) (skipn 64 bytes)
      end
  end.

Definition digest (msg : list Z) : list Z :=
  let p := pad msg in
  flat_map (bigEndian 4) (blocks (length p) initialState p).

Definition hexDigit (n : Z) : ascii :=
  ascii_of_nat (Z.to_nat (if n <? 10 then 48 + n else 87 + n)).

Fixpoint hexOfBytes (bytes : list Z) : string :=
  match bytes with
  | [] => ""
  | b :: rest =>
      String (hexDigit (Z.shiftr b 4)) (String (hexDigit (Z.land b 15)) (hexOfBytes rest))
  end.

Definition bytesOfString (s : string) : list Z :=
  map (fun c => Z.of_nat (nat_of_ascii c)) (list_ascii_of_string s).

(** Value of a hexadecimal digit, [None] for any other character. *)
Definition hexValue (c : ascii) : option Z :=
  let n := Z.of_nat (nat_of_ascii c) in
  if (48 <=? n) && (n <=? 57) then Some (n - 48)
  else if (97 <=? n) && (n <=? 102) then Some (n - 87)
  else if (65 <=? n) && (n <=? 70) then Some (n - 55)
  else None.

(** [Buffer.from(s, 'hex')]: whole bytes up to the first character pair
    that is not hexadecimal. *)
Fixpoint bytesOfHex (s : string) : list Z :=
  match s with
  | String a (String b rest) =>
      match hexValue a, hexValue b with
      | Some x, Some y => (16 * x + y) :: bytesOfHex rest
      | _, _ => []
      end
  | _ => []
  end.

(** [createHash("sha256").update(s).digest("hex")] *)
Definition sha256 (s : string) : string :=
  hexOfBytes (digest (bytesOfString s)).

(** [createHash("sha256").update(Buffer.from(s, 'hex')).digest("hex")] *)
Definition sha256OfHex (s : string) : string :=
  hexOfBytes (digest (bytesOfHex s)).

End Sha256.

(* ===================================================================== *)
(** ** JSON.stringify                                                      *)
(* ===================================================================== *)

Module Json.

(** The values the hashed objects hold. *)
Inductive value : Type :=
| JUndefined
| JNull
| JString (s : string)
| JNumber (n : Z).

Definition ofString (o : option string) : value :=
  match o with
  | Some s => JString s
  | None => JNull
  end.

Definition ofStringField (f : field string) : value :=
  match f with
  | Undefined => JUndefined
  | Null => JNull
  | Val s => JString s
  end.

Definition ofNumberField (f : field Z) : value :=
  match f with
  | Undefined => JUndefined
  | Null => JNull
  | Val n => JNumber n
  end.

Definition quote : string := String (ascii_of_nat 34) "".
Definition backslash : string := String (ascii_of_nat 92) "".

Definition escapeChar (c : ascii) : string :=
  let n := Z.of_nat (nat_of_ascii c) in
  if n =? 34 then backslash +:+ quote
  else if n =? 92 then backslash +:+ backslash
  else if n =? 8 then backslash +:+ "b"
  else if n =? 9 then backslash +:+ "t"
  else if n =? 10 then backslash +:+ "n"
  else if n =? 12 then backslash +:+ "f"
  else if n =? 13 then backslash +:+ "r"
  else if n <? 32 then backslash +:+ "u00" +:+ Sha256.hexOfBytes [n]
  else String c "".

Fixpoint escape (s : string) : string :=
  match s with
  | EmptyString => ""
  | String c rest => escapeChar c +:+ escape rest
  end.

Definition stringifyString (s : string) : string :=
  quote +:+ escape s +:+ quote.

(** A member of an object: nothing for [undefined], which is left out. *)
Definition stringifyMember (kv : string * value) : option string :=
  let key := stringifyString (fst kv) +:+ ":" in
  match snd kv with
  | JUndefined => None
  | JNull => Some (key +:+ "null")
  | JString s => Some (key +:+ stringifyString s)
  | JNumber n => Some (key +:+ numberToString n)
  end.

Fixpoint joinWith (sep : string) (l : list string) : string :=
  match l with
  | [] => ""
  | [x] => x
  | x :: rest => x +:+ sep +:+ joinWith sep rest
  end.

(** [JSON.stringify] of a flat object given as its members in order. *)
Definition stringify (members : list (string * value)) : string :=
  "{" +:+ joinWith "," (omap stringifyMember members) +:+ "}".

End Json.

(* ===================================================================== *)
(** ** decimal.js amounts                                                  *)
(* ===================================================================== *)

Module Amount.

(** An amount is NaN or a decimal with 8 fractional digits, held as its
    number of 10^-8 units. *)
Inductive t : Type :=
| NaN
| Fixed (units : Z).

Definition scale : Z := 100000000.

Definition ofInteger (n : Z) : t := Fixed (n * scale).

Definition pad8 (s : string) : string :=
  repeatString (8 - String.length s) "0" +:+ s.

(** [new Decimal(a).toFixed(8)] *)
Definition toFixed8 (a : t) : string :=
  match a with
  | NaN => "NaN"
  | Fixed u =>
      let m := Z.abs u in
      (if u <? 0 then "-" else "")
        +:+ numberToString (m / scale) +:+ "." +:+ pad8 (numberToString (m mod scale))
  end.

(** [isNaN(a) || a <= 0], the test the command-line menu applies to an
    amount before it builds a transaction. *)
Definition notPositive (a : t) : bool :=
  match a with
  | NaN => true
  | Fixed u => u <=? 0
  end.

End Amount.

(* ===================================================================== *)
(** ** elliptic (secp256k1) and the wallet files                           *)
(* ===================================================================== *)

(** The operations of the [elliptic] library the code calls. The library is
    external; every result below holds for any implementation of it. *)
Class Elliptic : Type := {
  KeyPair : Type;
  (** [ec.keyFromPrivate(hex)] *)
  keyFromPrivate : string -> outcome KeyPair;
  (** [ec.keyFromPublic(hex, "hex")] *)
  keyFromPublic : string -> outcome KeyPair;
  (** [key.getPublic('hex')] *)
  getPublic : KeyPair -> string;
  (** [key.sign(digest, 'hex').toDER('hex')] *)
  sign : KeyPair -> string -> outcome string;
  (** [key.verify(digest, signature)] *)
  verify : KeyPair -> string -> string -> outcome bool
}.

Module Wallet.

Record t : Type := mk {
  publicKey : string;
  privateKey : string;
  address : string
}.

(** The address [createNewWallet] gives a public key: the first 30
    hexadecimal digits of the SHA-256 of its bytes. *)
Definition shortAddress (publicKey : string) : string :=
  substring0 30 (Sha256.sha256OfHex publicKey).

(** [loadWallet(address)] over the wallet directory [dir], one file per
    address. *)
Definition loadWallet (dir : gmap string t) (address : string) : outcome t :=
  match dir !! address with
  | Some w => Return w
  | None => Throw "Wallet not found."
  end.

End Wallet.

(* ===================================================================== *)
(** ** transaction.js                                                      *)
(* ===================================================================== *)

Module Transaction.

Record t : Type := mk {
  fromAddress : option string;
  toAddress : string;
  amount : Amount.t;
  timestamp : Z;
  signature : option string;
  blockHash : option string;
  originTransactionHash : option string;
  publicKey : option string;
  hash : string;
  index_in_block : field Z;
  tokenId : field Z;
  tokenName : field string;
  tokenSymbol : field string;
  tokenTotalSupply : field Z;
  contractId : field Z;
  method : field string;
  params : field string;
  result : field string
}.

Definition setHash (h : string) (tx : t) : t :=
  mk (fromAddress tx) (toAddress tx) (amount tx) (timestamp tx) (signature tx)
     (blockHash tx) (originTransactionHash tx) (publicKey tx) h
     (index_in_block tx) (tokenId tx) (tokenName tx) (tokenSymbol tx)
     (tokenTotalSupply tx) (contractId tx) (method tx) (params tx) (result tx).

Definition setSignature (sg : option string) (tx : t) : t :=
  mk (fromAddress tx) (toAddress tx) (amount tx) (timestamp tx) sg
     (blockHash tx) (originTransactionHash tx) (publicKey tx) (hash tx)
     (index_in_block tx) (tokenId tx) (tokenName tx) (tokenSymbol tx)
     (tokenTotalSupply tx) (contractId tx) (method tx) (params tx) (result tx).

Definition setPublicKey (pk : option string) (tx : t) : t :=
  mk (fromAddress tx) (toAddress tx) (amount tx) (timestamp tx) (signature tx)
     (blockHash tx) (originTransactionHash tx) pk (hash tx)
     (index_in_block tx) (tokenId tx) (tokenName tx) (tokenSymbol tx)
     (tokenTotalSupply tx) (contractId tx) (method tx) (params tx) (result tx).

(** The four assignments [tx.tokenId = ...; tx.tokenName = ...;
    tx.tokenSymbol = ...; tx.tokenTotalSupply = ...]. *)
Definition setToken (id : field Z) (name symbol : field string) (supply : field Z)
    (tx : t) : t :=
  mk (fromAddress tx) (toAddress tx) (amount tx) (timestamp tx) (signature tx)
     (blockHash tx) (originTransactionHash tx) (publicKey tx) (hash tx)
     (index_in_block tx) id name symbol supply
     (contractId tx) (method tx) (params tx) (result tx).

(** The object [calculateHash] serialises. *)
Definition hashData (tx : t) : list (string * Json.value) :=
  [ ("fromAddress", Json.ofString (fromAddress tx));
    ("toAddress", Json.JString (toAddress tx));
    ("amount", Json.JString (Amount.toFixed8 (amount tx)));
    ("tokenId", Json.ofNumberField (tokenId tx));
    ("tokenName", Json.ofStringField (tokenName tx));
    ("tokenSymbol", Json.ofStringField (tokenSymbol tx));
    ("tokenTotalSupply", Json.ofNumberField (tokenTotalSupply tx));
    ("originTransactionHash", Json.ofString (originTransactionHash tx));
    ("timestamp", Json.JNumber (timestamp tx)) ].

Definition calculateHash (tx : t) : string :=
  Sha256.sha256 (Json.stringify (hashData tx)).

(** The object while the constructor runs [this.hash = this.calculateHash()]:
    the first eight properties are assigned, the others are not yet. The
    hash property itself is not read by [calculateHash]. *)
Definition partial (fromAddress : option string) (toAddress : string)
    (amount : Amount.t) (timestamp : Z) (signature blockHash : option string)
    (originTransactionHash publicKey : option string) : t :=
  mk fromAddress toAddress amount timestamp signature blockHash
     originTransactionHash publicKey ""
     Undefined Undefined Undefined Undefined Undefined
     Undefined Undefined Undefined Undefined.

(** [new Transaction(...)], every parameter given ([None] for [null] and for
    a parameter left to its default [null]). *)
Definition new (fromAddress : option string) (toAddress : string)
    (amount : Amount.t) (timestamp : Z) (signature blockHash : option string)
    (originTransactionHash publicKey : option string)
    (index_in_block tokenId : option Z) (tokenName tokenSymbol : option string)
    (tokenTotalSupply contractId : option Z)
    (method params result : option string) : t :=
  let this := partial fromAddress toAddress amount timestamp signature blockHash
                      originTransactionHash publicKey in
  mk fromAddress toAddress amount timestamp signature blockHash
     originTransactionHash publicKey (calculateHash this)
     (ofOption index_in_block) (ofOption tokenId) (ofOption tokenName)
     (ofOption tokenSymbol) (ofOption tokenTotalSupply) (ofOption contractId)
     (ofOption method) (ofOption params) (ofOption result).

(** [new Transaction(from, to, amount, timestamp, signature, blockHash,
    originTransactionHash, publicKey)], the other parameters defaulted. *)
Definition new8 (fromAddress : option string) (toAddress : string)
    (amount : Amount.t) (timestamp : Z) (signature blockHash : option string)
    (originTransactionHash publicKey : option string) : t :=
  new fromAddress toAddress amount timestamp signature blockHash
      originTransactionHash publicKey None None None None None None None None None.

Definition optionOfField {A} (f : field A) : option A :=
  match f with
  | Val a => Some a
  | _ => None
  end.

(** [toJSON()] and [Transaction.fromJSON(data)]: the data object has the
    same properties; its amount is the 8-digit decimal text of the amount,
    which denotes the same amount. *)
Definition toJSON (tx : t) : t := tx.

Definition fromJSON (data : t) : t :=
  setHash (hash data)
    (new (fromAddress data) (toAddress data) (amount data) (timestamp data)
         (signature data) (blockHash data) (originTransactionHash data)
         (publicKey data) (optionOfField (index_in_block data))
         (optionOfField (tokenId data)) (optionOfField (tokenName data))
         (optionOfField (tokenSymbol data)) (optionOfField (tokenTotalSupply data))
         (optionOfField (contractId data)) (optionOfField (method data))
         (optionOfField (params data)) (optionOfField (result data))).

(** [verifyTransaction()]: throws when the stored hash is not the
    recomputed one. *)
Definition verifyTransaction (tx : t) : outcome unit :=
  if String.eqb (hash tx) (calculateHash tx) then Return tt
  else Throw "Transaction hash does not match expected hash!".

Section WithCurve.
Context {EC : Elliptic}.

(** The body of the [try] block of [isValid]. *)
Definition checkSignature (tx : t) (hashToVerify : string) : outcome bool :=
  if negb (truthy (publicKey tx)) then Throw "Public key is missing!"
  else
    bind (keyFromPublic (orEmpty (publicKey tx))) (fun key =>
    verify key hashToVerify (orEmpty (signature tx))).

Definition isValid (tx : t) : outcome bool :=
  let hashToVerify := calculateHash tx in
  match fromAddress tx with
  | None => Return true
  | Some _ =>
      if negb (truthy (signature tx))
      then Throw "Transaction signature is missing or invalid!"
      else
        match checkSignature tx hashToVerify with
        | Return ok => Return ok
        | Throw _ => Throw "Transaction signature is invalid!"
        end
  end.

(** [signWithKeyPair(keyPair)]: the outcome and the object as the call
    left it. *)
Definition signWithKeyPair (keyPair : KeyPair) (this : t) : outcome unit * t :=
  let failed m := Throw ("Failed to sign transaction: " +:+ m) in
  let dataToSign := calculateHash this in
  match sign keyPair dataToSign with
  | Throw m => (failed m, this)
  | Return der =>
      let this1 := setSignature (Some der) this in
      let this2 := setPublicKey (Some (getPublic keyPair)) this1 in
      (Return tt, setHash (calculateHash this2) this2)
  end.

(** [signWithAddress(address)] over the wallet directory [dir]. *)
Definition signWithAddress (dir : gmap string Wallet.t) (address : string)
    (this : t) : outcome unit * t :=
  let failed m := Throw ("Failed to sign with address: " +:+ m) in
  match Wallet.loadWallet dir address with
  | Throw m => (failed m, this)
  | Return wallet =>
      match keyFromPrivate (Wallet.privateKey wallet) with
      | Throw m => (failed m, this)
      | Return keyPair =>
          let publicKey := getPublic keyPair in
          let hashTx := calculateHash this in
          match sign keyPair hashTx with
          | Throw m => (failed m, this)
          | Return der =>
              let this1 := setSignature (Some der) this in
              let this2 := setPublicKey (Some publicKey) this1 in
              (Return tt, setHash (calculateHash this2) this2)
          end
      end
  end.

End WithCurve.

End Transaction.

(* ===================================================================== *)
(** ** merkleTree.js                                                       *)
(* ===================================================================== *)

Module MerkleTree.

(** Modelled from the spec: merkleTree.js, the root of the tree over an
    ordered list of leaf hashes. The next level pairs the hashes two by two,
    a pair combining as the SHA-256 of the two hexadecimal texts one after
    the other; an odd last hash is promoted unchanged; the levels repeat
    until one root remains. *)
Fixpoint nextLevel (hashes : list string) : list string :=
  match hashes with
  | a :: b :: rest => Sha256.sha256 (a +:+ b) :: nextLevel rest
  | _ => hashes
  end.

Fixpoint rootFrom (levels : nat) (hashes : list string) : string :=
  match hashes, levels with
  | [], _ => Js.repeatString 64 "0"
  | [root], _ => root
  | first :: _, O => first
  | _, S k => rootFrom k (nextLevel hashes)
  end.

Definition getRootHash (hashes : list string) : string :=
  rootFrom (length hashes) hashes.

End MerkleTree.

(* ===================================================================== *)
(** ** block.js                                                            *)
(* ===================================================================== *)

Module Block.

Record t : Type := mk {
  index : Z;
  previousHash : option string;
  timestamp : Z;
  transactions : list Transaction.t;
  difficulty : Z;
  merkleRoot : string;
  nonce : Z;
  originTransactionHash : option string;
  hash : string
}.

Definition setNonce (n : Z) (b : t) : t :=
  mk (index b) (previousHash b) (timestamp b) (transactions b) (difficulty b)
     (merkleRoot b) n (originTransactionHash b) (hash b).

Definition setHash (h : string) (b : t) : t :=
  mk (index b) (previousHash b) (timestamp b) (transactions b) (difficulty b)
     (merkleRoot b) (nonce b) (originTransactionHash b) h.

(** [array[i]]: [undefined] outside the array. *)
Definition item {A} (l : list A) (i : Z) : option A :=
  if i <? 0 then None else nth_error l (Z.to_nat i).

Definition calculateMerkleRoot (transactions : list Transaction.t) : string :=
  if (length transactions =? 0)%nat then Js.repeatString 64 "0"
  else MerkleTree.getRootHash (map Transaction.hash transactions).

Definition calculateLastOriginTransactionHash (transactions : list Transaction.t)
    : option string :=
  let len := Z.of_nat (length transactions) in
  if len =? 0 then None
  else
    match item transactions (len - 1) with
    | None => None
    | Some lastTransaction =>
        if truthy (Transaction.originTransactionHash lastTransaction)
        then Transaction.originTransactionHash lastTransaction
        else
          match item transactions (len - 2) with
          | Some secondToLastTransaction =>
              Transaction.originTransactionHash secondToLastTransaction
          | None => None
          end
    end.

(** [calculateHash()]. The JSON text of the transactions that the method
    also builds is not part of the hashed data. *)
Definition calculateHash (b : t) : string :=
  let dataToHash :=
    orEmpty (previousHash b)
      +:+ numberToString (timestamp b)
      +:+ merkleRoot b
      +:+ numberToString (nonce b)
      +:+ orEmpty (originTransactionHash b) in
  Sha256.sha256 dataToHash.

(** [new Block(index, previousHash, timestamp, transactions, difficulty)] *)
Definition new (index : Z) (previousHash : option string) (timestamp : Z)
    (transactions : list Transaction.t) (difficulty : Z) : t :=
  let this := mk index previousHash timestamp transactions difficulty
                 (calculateMerkleRoot transactions) 0
                 (calculateLastOriginTransactionHash transactions) "" in
  setHash (calculateHash this) this.

(** The block as JSON data ([toJSON()]). *)
Record data : Type := mkData {
  d_index : Z;
  d_previous_hash : option string;
  d_timestamp : Z;
  d_nonce : Z;
  d_difficulty : Z;
  d_merkle_root : string;
  d_hash : string;
  d_origin_transaction_hash : option string;
  d_transactions : list Transaction.t
}.

Definition toJSON (b : t) : data :=
  mkData (index b) (previousHash b) (timestamp b) (nonce b) (difficulty b)
         (merkleRoot b) (hash b) (originTransactionHash b)
         (map Transaction.toJSON (transactions b)).

Definition fromJSON (d : data) : t :=
  let previousHash :=
    match d_previous_hash d with
    | Some p =>
        if String.eqb p "0" || String.eqb p "" || String.eqb p "null"
        then None else Some p
    | None => None
    end in
  let block := new (d_index d) previousHash (d_timestamp d)
                   (map Transaction.fromJSON (d_transactions d)) (d_difficulty d) in
  mk (index block) (Block.previousHash block) (timestamp block)
     (transactions block) (difficulty block)
     (d_merkle_root d) (d_nonce d) (d_origin_transaction_hash d) (d_hash d).

(** [hash.substring(0, difficulty) !== Array(difficulty + 1).join("0")],
    the test of the mining loop and of the difficulty checks. *)
Definition missesDifficulty (hash : string) (difficulty : Z) : outcome bool :=
  let prefix := substring0 difficulty hash in
  bind (arrayJoin (difficulty + 1) "0") (fun zeros =>
  Return (negb (String.eqb prefix zeros))).

(** How a loop run on bounded fuel ended. *)
Inductive run : Type :=
| Finished (r : outcome unit)
| OutOfFuel.

(** [mineBlock(difficulty)], at most [fuel] executions of the loop body:
    how the call ended and the block as it left it. *)
Fixpoint mineBlock (fuel : nat) (difficulty : Z) (this : t) : run * t :=
  match missesDifficulty (hash this) difficulty with
  | Throw m => (Finished (Throw m), this)
  | Return false => (Finished (Return tt), this)
  | Return true =>
      match fuel with
      | O => (OutOfFuel, this)
      | S fuel' =>
          let this1 := setNonce (nonce this + 1) this in
          let this2 := setHash (calculateHash this1) this1 in
          mineBlock fuel' difficulty this2
      end
  end.

Section WithCurve.
Context {EC : Elliptic}.

(** [hasValidTransactions()] *)
Fixpoint validTransactions (txs : list Transaction.t) : outcome bool :=
  match txs with
  | [] => Return true
  | tx :: rest =>
      bind (Transaction.verifyTransaction tx) (fun _ =>
      match Transaction.fromAddress tx with
      | None => validTransactions rest
      | Some _ =>
          bind (Transaction.isValid tx) (fun ok =>
          if ok then validTransactions rest else Return false)
      end)
  end.

Definition hasValidTransactions (b : t) : outcome bool :=
  validTransactions (transactions b).

End WithCurve.

End Block.

(* ===================================================================== *)
(** ** db.js: the store                                                    *)
(* ===================================================================== *)

Module Store.

(** A row of [pending_transactions], keyed by [hash]. *)
Record pendingRow : Type := mkRow {
  r_hash : string;
  r_from_address : option string;
  r_to_address : string;
  r_amount : Amount.t;
  r_timestamp : Z;
  r_signature : option string;
  r_origin_transaction_hash : option string;
  r_token_id : field Z
}.

(** What the database answers to a statement. *)
Inductive reply : Type :=
| Ok
| Error (code : string).

(** The tables the chain reads and writes. [pending_transactions] is kept
    row by row. [saved] lists the blocks whose rows [Block.save] wrote, in
    order: it stands for the tables [blocks], [transactions],
    [address_balances], [tokens], [token_balances], [merkle_nodes] and
    [merkle_proof_paths], which no function below reads back. [replies] are
    the answers of the database to the coming operations, one per
    operation, [Ok] once they run out: a failing operation is one whose
    answer is an [Error]. *)
Record t : Type := mk {
  pending_transactions : list pendingRow;
  saved : list Block.t;
  replies : list reply
}.

(** The answer to the next operation, and the store once it is consumed. *)
Definition query (db : t) : reply * t :=
  match replies db with
  | [] => (Ok, db)
  | r :: rest => (r, mk (pending_transactions db) (saved db) rest)
  end.

Definition hasRow (h : string) (rows : list pendingRow) : bool :=
  existsb (fun r => String.eqb (r_hash r) h) rows.

(** [Transaction.savePending()]: [INSERT ... ON DUPLICATE KEY UPDATE hash = hash] *)
Definition savePending (tx : Transaction.t) (db : t) : outcome unit * t :=
  let row := mkRow (Transaction.calculateHash tx) (Transaction.fromAddress tx)
                   (Transaction.toAddress tx) (Transaction.amount tx)
                   (Transaction.timestamp tx) (Transaction.signature tx)
                   (Transaction.originTransactionHash tx) (Transaction.tokenId tx) in
  match query db with
  | (Error code, db') => (Throw code, db')
  | (Ok, db') =>
      let rows := pending_transactions db' in
      (Return tt,
       mk (if hasRow (r_hash row) rows then rows else rows ++ [row])
          (saved db') (replies db'))
  end.

(** [clearPendingTransactions()]: [DELETE FROM pending_transactions] *)
Definition clearPendingTransactions (db : t) : outcome unit * t :=
  match query db with
  | (Error code, db') => (Throw code, db')
  | (Ok, db') => (Return tt, mk [] (saved db') (replies db'))
  end.

(** [clearMinedTransactions(minedTransactions)]:
    [DELETE FROM pending_transactions WHERE hash IN (...)] *)
Definition clearMinedTransactions (minedTransactions : list Transaction.t) (db : t)
    : outcome unit * t :=
  let transactionHashes := map Transaction.hash minedTransactions in
  if (length transactionHashes =? 0)%nat then (Return tt, db)
  else
    match query db with
    | (Error code, db') => (Throw code, db')
    | (Ok, db') =>
        (Return tt,
         mk (List.filter (fun r => negb (existsb (String.eqb (r_hash r)) transactionHashes))
                    (pending_transactions db'))
            (saved db') (replies db'))
    end.

(** [clearLocalBlockchainData()]: every table is emptied. *)
Definition clearLocalBlockchainData (db : t) : outcome unit * t :=
  match query db with
  | (Error code, db') => (Throw code, db')
  | (Ok, db') => (Return tt, mk [] [] (replies db'))
  end.

Section WithCurve.
Context {EC : Elliptic}.

(** Does [tx.save()] throw before it reaches the database? It calls
    [this.isValid()] first and ignores a [false]. *)
Definition saveThrows (tx : Transaction.t) : bool :=
  match Transaction.isValid tx with
  | Throw _ => true
  | Return _ => false
  end.

(** [Block.save()]. A duplicate-entry error is logged and swallowed, any
    other error is thrown again; so is the exception of a transaction whose
    [save] throws in [isValid]. A save that fails is taken to fail on its
    first statement, the insertion of the block row. *)
Definition saveBlock (b : Block.t) (db : t) : outcome unit * t :=
  match query db with
  | (Error code, db') =>
      if String.eqb code "ER_DUP_ENTRY" then (Return tt, db') else (Throw code, db')
  | (Ok, db') =>
      if existsb saveThrows (Block.transactions b)
      then (Throw "Transaction signature is invalid!", db')
      else (Return tt, mk (pending_transactions db') (saved db' ++ [b]) (replies db'))
  end.

End WithCurve.

End Store.

(* ===================================================================== *)
(** ** p2p.js: what the chain broadcasts                                   *)
(* ===================================================================== *)

Module P2p.

Inductive message : Type :=
| NEW_BLOCK (data : Block.data)
| NEW_TRANSACTION (data : Transaction.t)
| FULL_CHAIN (data : list Block.data).

End P2p.

(* ===================================================================== *)
(** ** blockchain.js                                                       *)
(* ===================================================================== *)

Module Blockchain.

(** The singleton and the collaborators it acts on: the store, the named
    locks of lock.js and the messages handed to the peers so far. *)
Record t : Type := mk {
  chain : list Block.t;
  difficulty : Z;
  pendingTransactions : list Transaction.t;
  miningReward : Amount.t;
  minerAddress : string;
  genesisAddress : string;
  transactionPool : gset string;
  isReplacingChain : bool;
  isSynchronized : bool;
  db : Store.t;
  locks : gset string;
  sent : list P2p.message
}.

Definition setChain (c : list Block.t) (s : t) : t :=
  mk c (difficulty s) (pendingTransactions s) (miningReward s) (minerAddress s)
     (genesisAddress s) (transactionPool s) (isReplacingChain s) (isSynchronized s)
     (db s) (locks s) (sent s).

Definition setPendingTransactions (p : list Transaction.t) (s : t) : t :=
  mk (chain s) (difficulty s) p (miningReward s) (minerAddress s)
     (genesisAddress s) (transactionPool s) (isReplacingChain s) (isSynchronized s)
     (db s) (locks s) (sent s).

Definition setTransactionPool (p : gset string) (s : t) : t :=
  mk (chain s) (difficulty s) (pendingTransactions s) (miningReward s) (minerAddress s)
     (genesisAddress s) p (isReplacingChain s) (isSynchronized s)
     (db s) (locks s) (sent s).

Definition setIsReplacingChain (f : bool) (s : t) : t :=
  mk (chain s) (difficulty s) (pendingTransactions s) (miningReward s) (minerAddress s)
     (genesisAddress s) (transactionPool s) f (isSynchronized s)
     (db s) (locks s) (sent s).

Definition setIsSynchronized (f : bool) (s : t) : t :=
  mk (chain s) (difficulty s) (pendingTransactions s) (miningReward s) (minerAddress s)
     (genesisAddress s) (transactionPool s) (isReplacingChain s) f
     (db s) (locks s) (sent s).

Definition setDb (d : Store.t) (s : t) : t :=
  mk (chain s) (difficulty s) (pendingTransactions s) (miningReward s) (minerAddress s)
     (genesisAddress s) (transactionPool s) (isReplacingChain s) (isSynchronized s)
     d (locks s) (sent s).

Definition setLocks (l : gset string) (s : t) : t :=
  mk (chain s) (difficulty s) (pendingTransactions s) (miningReward s) (minerAddress s)
     (genesisAddress s) (transactionPool s) (isReplacingChain s) (isSynchronized s)
     (db s) l (sent s).

Definition setSent (m : list P2p.message) (s : t) : t :=
  mk (chain s) (difficulty s) (pendingTransactions s) (miningReward s) (minerAddress s)
     (genesisAddress s) (transactionPool s) (isReplacingChain s) (isSynchronized s)
     (db s) (locks s) m.

(** *** Computations over the singleton *)

Definition M (A : Type) : Type := t -> outcome A * t.

Definition ret {A} (a : A) : M A := fun s => (Return a, s).
Definition throw {A} (msg : string) : M A := fun s => (Throw msg, s).
Definition lift {A} (o : outcome A) : M A := fun s => (o, s).
Definition get : M t := fun s => (Return s, s).
Definition modify (f : t -> t) : M unit := fun s => (Return tt, f s).

Definition mbind {A B} (c : M A) (k : A -> M B) : M B :=
  fun s =>
    match c s with
    | (Return a, s') => k a s'
    | (Throw msg, s') => (Throw msg, s')
    end.

(** [try { c } catch (error) { handler }] *)
Definition tryCatch {A} (c : M A) (handler : string -> M A) : M A :=
  fun s =>
    match c s with
    | (Throw msg, s') => handler msg s'
    | r => r
    end.

(** [try { c } finally { cleanup }], for a cleanup that does not throw. *)
Definition finally {A} (c : M A) (cleanup : t -> t) : M A :=
  fun s => let (r, s') := c s in (r, cleanup s').

(** An operation of the store, run on the [db] of the singleton. *)
Definition onDb {A} (op : Store.t -> outcome A * Store.t) : M A :=
  fun s => let (r, d) := op (db s) in (r, setDb d s).

Notation "'let*' x := c 'in' k" := (mbind c (fun x => k))
  (at level 10, x name, c at level 100, k at level 200).
Notation "c >>> k" := (mbind c (fun _ => k))
  (at level 100, k at level 200, right associativity).

(** *** lock.js *)

(** Modelled from the spec: lock.js, a named mutex. [acquireLock] answers
    [false] when the lock is held, and takes it and answers [true] when it
    is free; [releaseLock] frees it. *)
Definition acquireLock (name : string) : M bool :=
  fun s =>
    if bool_decide (name ∈ locks s) then (Return false, s)
    else (Return true, setLocks (locks s ∪ {[ name ]}) s).

Definition releaseLock (name : string) (s : t) : t :=
  setLocks (locks s ∖ {[ name ]}) s.

(** *** p2p.js broadcasts *)

Definition broadcast (m : P2p.message) : M unit :=
  modify (fun s => setSent (sent s ++ [m]) s).

Definition broadcastBlock (b : Block.t) : M unit :=
  broadcast (P2p.NEW_BLOCK (Block.toJSON b)).

Definition broadcastTransaction (tx : Transaction.t) : M unit :=
  broadcast (P2p.NEW_TRANSACTION (Transaction.toJSON tx)).

Definition broadcastChain : M unit :=
  let* s := get in broadcast (P2p.FULL_CHAIN (map Block.toJSON (chain s))).

(** *** The methods *)

(** [getLatestBlock()]: [undefined] on an empty chain. *)
Definition getLatestBlock (s : t) : option Block.t :=
  Block.item (chain s) (Z.of_nat (length (chain s)) - 1).

(** Reading a property of [getLatestBlock()]. *)
Definition latestBlock : M Block.t :=
  let* s := get in
  match getLatestBlock s with
  | Some b => ret b
  | None => throw "Cannot read properties of undefined"
  end.

(** [txs.some(newTx => newTx.hash === tx.hash)] *)
Definition hasHash (txs : list Transaction.t) (tx : Transaction.t) : bool :=
  existsb (fun newTx => String.eqb (Transaction.hash newTx) (Transaction.hash tx)) txs.

(** [this.pendingTransactions.filter(tx => !mined.some(...))] *)
Definition dropMined (mined : list Transaction.t) : M unit :=
  modify (fun s =>
    setPendingTransactions
      (List.filter (fun tx => negb (hasHash mined tx)) (pendingTransactions s)) s).

Definition calculateCumulativeDifficulty (chainData : list Block.data) : Z :=
  fold_left (fun total block => total + Block.d_difficulty block) chainData 0.

Section WithCurve.
Context {EC : Elliptic}.

Definition addPendingTransaction (transaction : Transaction.t) : M unit :=
  let* valid := lift (Transaction.isValid transaction) in
  if negb valid then throw "Invalid transaction."
  else
    let* s := get in
    if bool_decide (Transaction.hash transaction ∈ transactionPool s) then ret tt
    else
      modify (fun s => setPendingTransactions (pendingTransactions s ++ [transaction]) s) >>>
      modify (fun s => setTransactionPool
                         (transactionPool s ∪ {[ Transaction.hash transaction ]}) s) >>>
      onDb (Store.savePending transaction) >>>
      broadcastTransaction transaction.

Definition addBlock (newBlock : Block.t) : M bool :=
  let* previousBlock := latestBlock in
  if negb (bool_decide (Block.previousHash newBlock = Some (Block.hash previousBlock)))
  then ret false
  else
    let* valid := lift (Block.hasValidTransactions newBlock) in
    if negb valid then ret false
    else if negb (String.eqb (Block.hash newBlock) (Block.calculateHash newBlock))
    then ret false
    else
      let* s := get in
      let* misses := lift (Block.missesDifficulty (Block.hash newBlock) (difficulty s)) in
      if (misses : bool) then ret false
      else
        modify (fun s => setChain (chain s ++ [newBlock]) s) >>>
        tryCatch
          (onDb (Store.saveBlock newBlock) >>>
           onDb (Store.clearMinedTransactions (Block.transactions newBlock)) >>>
           dropMined (Block.transactions newBlock) >>>
           broadcastBlock newBlock >>>
           ret true)
          (fun _ => ret false).

(** The loop of [isValidChain] over the blocks after the first. *)
Fixpoint validLinks (previousBlock : Block.data) (rest : list Block.data)
    : outcome bool :=
  match rest with
  | [] => Return true
  | currentBlock :: rest' =>
      if negb (bool_decide (Block.d_previous_hash currentBlock
                            = Some (Block.d_hash previousBlock)))
      then Return false
      else
        let tempBlock := Block.fromJSON currentBlock in
        if negb (String.eqb (Block.d_hash currentBlock) (Block.calculateHash tempBlock))
        then Return false
        else
          bind (Block.missesDifficulty (Block.d_hash currentBlock)
                                       (Block.d_difficulty currentBlock)) (fun misses =>
          if (misses : bool) then Return false
          else
            bind (Block.hasValidTransactions tempBlock) (fun isValidTransactions =>
            if negb isValidTransactions then Return false
            else validLinks currentBlock rest'))
  end.

Definition isValidChain (chainData : list Block.data) : outcome bool :=
  match chainData with
  | [] => Return false
  | firstBlock :: rest =>
      if negb (Block.d_index firstBlock =? 0) then Return false
      else
        match Block.d_previous_hash firstBlock with
        | None => validLinks firstBlock rest
        | Some p => if String.eqb p "0" then validLinks firstBlock rest else Return false
        end
  end.

(** The loop of [replaceChain] that saves and appends the received blocks. *)
Fixpoint adoptBlocks (newChainData : list Block.data) : M unit :=
  match newChainData with
  | [] => ret tt
  | blockData :: rest =>
      let newBlock := Block.fromJSON blockData in
      onDb (Store.saveBlock newBlock) >>>
      modify (fun s => setChain (chain s ++ [newBlock]) s) >>>
      adoptBlocks rest
  end.

Definition replaceChain (newChainData : list Block.data) : M unit :=
  let* s := get in
  if isReplacingChain s then ret tt
  else
    modify (setIsReplacingChain true) >>>
    finally
      (let* s := get in
       if (length newChainData <=? length (chain s))%nat then ret tt
       else
         let* isValid := lift (isValidChain newChainData) in
         if negb isValid then ret tt
         else
           let localCumulativeDifficulty :=
             calculateCumulativeDifficulty (map Block.toJSON (chain s)) in
           let receivedCumulativeDifficulty :=
             calculateCumulativeDifficulty newChainData in
           if receivedCumulativeDifficulty >? localCumulativeDifficulty
           then
             tryCatch
               (onDb Store.clearLocalBlockchainData >>>
                modify (setChain []) >>>
                adoptBlocks newChainData >>>
                modify (setIsSynchronized true) >>>
                broadcastChain)
               (fun _ => ret tt)
           else ret tt)
      (setIsReplacingChain false).

(** [uniqueTransactionsMap]: the first transaction of each hash, in order. *)
Fixpoint uniqueByHash (seen : list string) (txs : list Transaction.t)
    : list Transaction.t :=
  match txs with
  | [] => []
  | tx :: rest =>
      if existsb (String.eqb (Transaction.hash tx)) seen
      then uniqueByHash seen rest
      else tx :: uniqueByHash (Transaction.hash tx :: seen) rest
  end.

(** The pending transactions whose hash is in no block of the chain. *)
Definition notYetMined (s : t) : list Transaction.t :=
  List.filter (fun tx => negb (existsb (fun block => hasHash (Block.transactions block) tx)
                                  (chain s)))
         (pendingTransactions s).

(** The reward transaction of [minePendingTransactions], created at [now]. *)
Definition rewardTransaction (s : t) (miningRewardAddress : string) (now : Z)
    : Transaction.t :=
  let rewardTx := Transaction.new8 None miningRewardAddress (miningReward s) now
                                   None (Some "") None (Some "") in
  let rewardTx := Transaction.setHash (Transaction.calculateHash rewardTx) rewardTx in
  Transaction.setSignature None rewardTx.

(** [this.pendingTransactions = []; await this.clearPendingTransactions()] *)
Definition dropAllPending : M unit :=
  modify (setPendingTransactions []) >>>
  onDb Store.clearPendingTransactions.

(** From the construction of the new block to the check of the previous
    block, in [minePendingTransactions]. *)
Definition assembleBlock (blockTransactions : list Transaction.t) (now : Z)
    : M Block.t :=
  let* s := get in
  let* latest := latestBlock in
  let newBlock := Block.new (Z.of_nat (length (chain s))) (Some (Block.hash latest))
                            now blockTransactions (difficulty s) in
  let* previousBlock := latestBlock in
  let expectedOriginTransactionHash :=
    Block.calculateLastOriginTransactionHash (Block.transactions previousBlock) in
  if negb (bool_decide (Block.originTransactionHash previousBlock
                        = expectedOriginTransactionHash))
  then throw "Previous block has an invalid origin transaction hash"
  else ret newBlock.

(** What follows the mining in [minePendingTransactions]. *)
Definition appendMined (newBlock : Block.t) : M unit :=
  modify (fun s => setChain (chain s ++ [newBlock]) s) >>>
  onDb (Store.saveBlock newBlock) >>>
  onDb (Store.clearMinedTransactions (Block.transactions newBlock)) >>>
  modify (fun s => setTransactionPool
            (transactionPool s ∖ list_to_set (map Transaction.hash (Block.transactions newBlock)))
            s) >>>
  broadcastBlock newBlock >>>
  dropMined (Block.transactions newBlock).

Definition finished {A} (r : outcome A * t) : Block.run * t :=
  match r with
  | (Return _, s) => (Block.Finished (Return tt), s)
  | (Throw msg, s) => (Block.Finished (Throw msg), s)
  end.

(** The [try] block of [minePendingTransactions]. The mining loop runs on
    [fuel]; the clock reads [nowReward] for the reward transaction and
    [nowBlock] for the block. *)
Definition mineBody (fuel : nat) (nowReward nowBlock : Z)
    (miningRewardAddress : option string) (s : t) : Block.run * t :=
  if (length (pendingTransactions s) =? 0)%nat then (Block.Finished (Return tt), s)
  else
    let filteredTransactions := notYetMined s in
    if (length filteredTransactions =? 0)%nat then finished (dropAllPending s)
    else
      let uniqueTransactions := uniqueByHash [] filteredTransactions in
      if (length uniqueTransactions =? 0)%nat then finished (dropAllPending s)
      else
        let blockTransactions :=
          uniqueTransactions ++
          (if truthy miningRewardAddress
           then [rewardTransaction s (orEmpty miningRewardAddress) nowReward]
           else []) in
        match assembleBlock blockTransactions nowBlock s with
        | (Throw msg, s1) => (Block.Finished (Throw msg), s1)
        | (Return newBlock, s1) =>
            match Block.mineBlock fuel (difficulty s1) newBlock with
            | (Block.OutOfFuel, _) => (Block.OutOfFuel, s1)
            | (Block.Finished (Throw msg), _) => (Block.Finished (Throw msg), s1)
            | (Block.Finished (Return _), mined) => finished (appendMined mined s1)
            end
        end.

(** [minePendingTransactions(miningRewardAddress)]: an exception of the
    [try] block is logged, and the lock is released on every way out. While
    the mining loop is still running the lock is held. *)
Definition minePendingTransactions (fuel : nat) (nowReward nowBlock : Z)
    (miningRewardAddress : option string) (s : t) : Block.run * t :=
  match acquireLock "miningLock" s with
  | (Return true, s1) =>
      match mineBody fuel nowReward nowBlock miningRewardAddress s1 with
      | (Block.OutOfFuel, s2) => (Block.OutOfFuel, s2)
      | (Block.Finished _, s2) => (Block.Finished (Return tt), releaseLock "miningLock" s2)
      end
  | (_, s1) => (Block.Finished (Return tt), s1)
  end.

(** The transaction [createToken] builds once the store has inserted the
    token row under [tokenId] at [timestamp], up to the explicit
    recalculation of its hash; [createToken] then passes it to
    [addPendingTransaction]. *)
Definition createTokenTransaction (name symbol : string) (totalSupply : Z)
    (creatorAddress : string) (tokenId timestamp : Z) : Transaction.t :=
  let tx := Transaction.new8 None creatorAddress (Amount.ofInteger totalSupply)
                             timestamp None (Some "") None (Some "") in
  let tx := Transaction.setToken (Val tokenId) (Val name) (Val symbol)
                                 (Val totalSupply) tx in
  let tx := Transaction.setSignature None tx in
  Transaction.setHash (Transaction.calculateHash tx) tx.

End WithCurve.

(** The singleton as its constructor leaves it, over a store. *)
Definition new (store : Store.t) : t :=
  mk [] 2 [] (Amount.ofInteger 100)
     "59a8277a36bffda17f9a997e5f7c23" "6c7f05cca415fd2073de8ea8853834"
     ∅ false false store ∅ [].

End Blockchain.

(* ===================================================================== *)
(** ** A stand-in curve                                                    *)
(* ===================================================================== *)

(** An implementation of the [Elliptic] interface on which the definitions
    can be evaluated: a key is its own hexadecimal text, the signature of
    a digest under a key is the SHA-256 of the key followed by the digest.
    It only serves to run the code on concrete inputs. *)
Module ModelCurve.

Definition isHex (s : string) : bool :=
  forallb (fun c => match Sha256.hexValue c with Some _ => true | None => false end)
          (list_ascii_of_string s).

Definition keyFrom (s : string) : outcome string :=
  if isHex s && negb (String.eqb s "") then Return s else Throw "Unknown point format".

Definition signature (key digest : string) : string :=
  Sha256.sha256 (key +:+ digest).

Definition curve : Elliptic := {|
  KeyPair := string;
  keyFromPrivate := keyFrom;
  keyFromPublic := keyFrom;
  getPublic := fun key => key;
  sign := fun key digest => Return (signature key digest);
  verify := fun key digest sg => Return (String.eqb sg (signature key digest))
|}.

End ModelCurve.

(* ===================================================================== *)
(** * Vocabulary of the properties                                         *)
(* ===================================================================== *)

(** One execution of the loop body of [mineBlock]. *)
Definition mineStep (b : Block.t) : Block.t :=
  let b1 := Block.setNonce (Block.nonce b + 1) b in
  Block.setHash (Block.calculateHash b1) b1.

(** The properties of a block that mining has no business with. *)
Definition sealed (b : Block.t) :=
  (Block.index b, Block.previousHash b, Block.timestamp b, Block.transactions b,
   Block.difficulty b, Block.merkleRoot b, Block.originTransactionHash b).

Section Vocabulary.
Context {EC : Elliptic}.

(** The checks of [isValid] on a signed transaction go through, and
    [verify] answers [b]: the signature and the public key are there (not
    [null], not empty), the key is read from the public key, and the
    signature is checked against the recomputed hash of the transaction. *)
Definition verifies (tx : Transaction.t) (b : bool) : Prop :=
  exists sg pk key,
    Transaction.signature tx = Some sg /\ sg <> ""
    /\ Transaction.publicKey tx = Some pk /\ pk <> ""
    /\ keyFromPublic pk = Return key
    /\ verify key (Transaction.calculateHash tx) sg = Return b.

(** The validity of a transaction in the words of the specification: the
    sender is absent, or the signature is present, the public key is
    present and well-formed, the address derived from the public key is the
    sender, and the signature verifies under the public key over the hash
    of the transaction. *)
Definition specifiedValidity (tx : Transaction.t) : bool :=
  match Transaction.fromAddress tx with
  | None => true
  | Some from =>
      truthy (Transaction.signature tx)
      && truthy (Transaction.publicKey tx)
      && match keyFromPublic (orEmpty (Transaction.publicKey tx)) with
         | Return key =>
             String.eqb (Wallet.shortAddress (orEmpty (Transaction.publicKey tx))) from
             && match verify key (Transaction.hash tx)
                             (orEmpty (Transaction.signature tx)) with
                | Return ok => ok
                | Throw _ => false
                end
         | Throw _ => false
         end
  end.

(** What [hasValidTransactions] asks of a transaction: its stored hash is
    its recomputed hash and, unless it is a reward, it passes [isValid]. *)
Definition sound (tx : Transaction.t) : Prop :=
  Transaction.hash tx = Transaction.calculateHash tx
  /\ (Transaction.fromAddress tx = None \/ Transaction.isValid tx = Return true).

End Vocabulary.

(** What [calculateHash] reads of a transaction. *)
Definition hashedFields (tx : Transaction.t) :=
  (Transaction.fromAddress tx, Transaction.toAddress tx,
   Amount.toFixed8 (Transaction.amount tx),
   Transaction.tokenId tx, Transaction.tokenName tx, Transaction.tokenSymbol tx,
   Transaction.tokenTotalSupply tx,
   Transaction.originTransactionHash tx, Transaction.timestamp tx).

(** [tx.hash = tx.calculateHash()] *)
Definition recalculated (tx : Transaction.t) : Transaction.t :=
  Transaction.setHash (Transaction.calculateHash tx) tx.

(** No transaction of the list carries the empty string as its origin hash:
    an origin hash is the hash of a transaction, or absent. *)
Definition originsWellFormed (txs : list Transaction.t) : Prop :=
  Forall (fun tx => Transaction.originTransactionHash tx <> Some "") txs.

(** Two readings of "the transaction has an origin hash": it is not
    [null]; it is neither [null] nor the empty string ([truthy]). *)
Definition present (origin : option string) : bool :=
  match origin with
  | Some _ => true
  | None => false
  end.

(** The derived origin hash in the words of the specification, for a
    reading [hasOne] of "has one": the origin hash of the last transaction
    if it has one, otherwise the one of the second-to-last transaction, and
    [null] when there is no transaction, a single one without an origin
    hash, or none on either of the last two. *)
Definition specifiedOrigin (hasOne : option string -> bool)
    (txs : list Transaction.t) : option string :=
  match rev txs with
  | [] => None
  | lastTransaction :: before =>
      if hasOne (Transaction.originTransactionHash lastTransaction)
      then Transaction.originTransactionHash lastTransaction
      else
        match before with
        | [] => None
        | secondToLast :: _ =>
            if hasOne (Transaction.originTransactionHash secondToLast)
            then Transaction.originTransactionHash secondToLast
            else None
        end
  end.

(** The hash of [tx] is the hash of a transaction of some block of the
    chain. *)
Definition minedAlready (s : Blockchain.t) (tx : Transaction.t) : Prop :=
  exists block existingTx,
    In block (Blockchain.chain s)
    /\ In existingTx (Block.transactions block)
    /\ Transaction.hash existingTx = Transaction.hash tx.

(** ** Sample data *)

Module Sample.

Definition alice : string := "a11ce0a11ce0a11ce0a11ce0a11ce0".
Definition bob : string := "b0b0b0b0b0b0b0b0b0b0b0b0b0b0b0".
Definition malloryKey : string := "04bad0bad0bad0bad0".
Definition clock : Z := 1700000000000.

(** A transfer from [alice] that nobody signed. *)
Definition unsignedTransfer : Transaction.t :=
  Transaction.new8 (Some alice) bob (Amount.ofInteger 5) clock None (Some "") None (Some "").

(** A transfer with a given origin hash. *)
Definition withOrigin (origin : option string) (now : Z) : Transaction.t :=
  Transaction.new8 (Some alice) bob (Amount.ofInteger 1) now None (Some "") origin (Some "").

(** Two transactions as a peer may send them, the last one with the empty
    string as origin hash; and two whose second-to-last has it. *)
Definition emptyOriginLast : list Transaction.t :=
  [ withOrigin (Some "11aa") clock; withOrigin (Some "") (clock + 1) ].

Definition emptyOriginBeforeLast : list Transaction.t :=
  [ withOrigin (Some "") clock; withOrigin None (clock + 1) ].

(** The transfer of [alice] once its hash is recalculated, and her wallet. *)
Definition transfer : Transaction.t := recalculated unsignedTransfer.

Definition aliceKey : string := "04a11ce0a11ce0a11ce0".

Definition wallets : gmap string Wallet.t :=
  {[ alice := Wallet.mk aliceKey aliceKey alice ]}.

(** A token creation as the constructor builds it, and the same
    transaction without its token fields. *)
Definition tokenCreation : Transaction.t :=
  Transaction.new None alice (Amount.ofInteger 1000) clock None (Some "") None (Some "")
                  None (Some 1) (Some "Token") (Some "TKN") (Some 1000)
                  None None None None.

Definition tokenless : Transaction.t :=
  Transaction.new None alice (Amount.ofInteger 1000) clock None (Some "") None (Some "")
                  None None None None None
                  None None None None.

(** *** A node *)

Definition genesisTime : Z := 1700000000036.

(** The genesis block of [createGenesisBlockWithReward], mined. *)
Definition genesisReward : Transaction.t :=
  Transaction.setSignature None
    (Transaction.new8 None "6c7f05cca415fd2073de8ea8853834" (Amount.ofInteger 1000000)
                      genesisTime None (Some "") None (Some "")).

Definition genesis : Block.t :=
  snd (Block.mineBlock 4 2 (Block.new 0 None genesisTime [genesisReward] 2)).

(** A store with no row, whose coming operations answer [replies]. *)
Definition store (replies : list Store.reply) : Store.t :=
  Store.mk [] [genesis] replies.

(** A node whose chain is the genesis block. *)
Definition node (replies : list Store.reply) : Blockchain.t :=
  Blockchain.setChain [genesis] (Blockchain.new (store replies)).

(** The transfer of [alice], signed with her wallet. *)
Definition signedTransfer : Transaction.t :=
  snd (Transaction.signWithAddress (EC := ModelCurve.curve) wallets alice transfer).

(** The node once it has admitted the transfer. *)
Definition nodeWithTransfer (replies : list Store.reply) : Blockchain.t :=
  snd (Blockchain.addPendingTransaction (EC := ModelCurve.curve) signedTransfer
         (node (Store.Ok :: replies))).

(** The node mines at [miningTime], for its miner address. *)
Definition miningTime : Z := 1700000001075.

Definition mining (replies : list Store.reply) : Block.run * Blockchain.t :=
  Blockchain.minePendingTransactions (EC := ModelCurve.curve) 4 miningTime miningTime
    (Some "59a8277a36bffda17f9a997e5f7c23") (nodeWithTransfer replies).

(** The block it mines, as a peer receives it. *)
Definition minedBlock : Block.t :=
  match Blockchain.getLatestBlock (snd (mining [])) with
  | Some b => b
  | None => genesis
  end.

(** A reward of nothing, a reward of NaN, and a transfer of a negative
    amount out of the address of [alice] signed with another key, as a
    peer may send them. *)
Definition zeroReward : Transaction.t :=
  Transaction.fromJSON
    (recalculated (Transaction.new8 None bob (Amount.Fixed 0) clock None (Some "") None (Some ""))).

Definition nanReward : Transaction.t :=
  Transaction.fromJSON
    (recalculated (Transaction.new8 None bob Amount.NaN clock None (Some "") None (Some ""))).

Definition negativeTransfer : Transaction.t :=
  Transaction.fromJSON
    (snd (Transaction.signWithKeyPair (EC := ModelCurve.curve) malloryKey
            (Transaction.new8 (Some alice) bob (Amount.ofInteger (-5)) clock
                              None (Some "") None (Some "")))).

(** A node whose only pending transaction is in its genesis block already,
    over a store that still holds two pending rows, one for a transaction
    the node does not have in memory. *)
Definition staleNode : Blockchain.t :=
  Blockchain.setPendingTransactions [genesisReward]
    (Blockchain.setDb
       (snd (Store.savePending zeroReward (snd (Store.savePending genesisReward (store [])))))
       (node [])).

(** A chain no longer than the one of [node]: its genesis block alone. *)
Definition sameChain : list Block.data := [Block.toJSON genesis].

End Sample.

(* ===================================================================== *)
(** * Properties                                                           *)
(* ===================================================================== *)

(** ** The hash function *)

(** The embedding of SHA-256 on the test vectors of FIPS 180-4 (the empty
    message, one block, two blocks). *)
Lemma sha256_test_vectors :
  Sha256.sha256 "" = "e3b0c44298fc1c149afbf4c8996fb92427ae41e4649b934ca495991b7852b855"%string
  /\ Sha256.sha256 "abc"
     = "ba7816bf8f01cfea414140de5dae2223b00361a396177a9cb410ff61f20015ad"%string
  /\ Sha256.sha256 "abcdbcdecdefdefgefghfghighijhijkijkljklmklmnlmnomnopnopq"
     = "248d6a61d20638b8e5c026930c3e6039a33ce45964ff2167f6ecedd419db06c1"%string.
Proof. vm_compute. repeat split; reflexivity. Qed.

(** ** Blocks: mining and the derived origin hash *)

Lemma missesDifficulty_zero (hash : string) :
  Block.missesDifficulty hash 0 = Return false.
Proof.
  unfold Block.missesDifficulty, substring0, arrayJoin; simpl.
  destruct hash; reflexivity.
Qed.

(** C7. Called with difficulty 0, [mineBlock] ends at once on any block:
    the test of the loop is false on every hash, so that no fuel at all is
    needed, the body never runs, and the block (its nonce included) is left
    as it was. *)
Theorem mineBlock_difficulty_zero (fuel : nat) (b : Block.t) :
  Block.mineBlock fuel 0 b = (Block.Finished (Return tt), b)
  /\ Block.mineBlock 0 0 b = (Block.Finished (Return tt), b)
  /\ Block.nonce (snd (Block.mineBlock fuel 0 b)) = Block.nonce b.
Proof.
  assert (E : forall n, Block.mineBlock n 0 b = (Block.Finished (Return tt), b)).
  { intros [|n]; cbn -[Block.missesDifficulty];
    rewrite missesDifficulty_zero; reflexivity. }
  rewrite !E; auto.
Qed.

Lemma mineStep_sealed (b : Block.t) : sealed (mineStep b) = sealed b.
Proof. reflexivity. Qed.

Lemma mineBlock_sealed (fuel : nat) (difficulty : Z) (b : Block.t) :
  sealed (snd (Block.mineBlock fuel difficulty b)) = sealed b.
Proof.
  revert b; induction fuel as [|fuel IH]; intros b; cbn -[Block.missesDifficulty];
    destruct (Block.missesDifficulty (Block.hash b) difficulty) as [[|]|]; simpl; auto.
  rewrite IH. apply mineStep_sealed.
Qed.

(** C10. Whatever the block, the difficulty and the number of iterations,
    and however the call ends (found, RangeError, or still looping when the
    fuel is spent), [mineBlock] leaves index, previous hash, timestamp,
    transactions, difficulty, Merkle root and origin transaction hash as
    they were: it assigns the nonce and the hash only. *)
Theorem mineBlock_changes_only_nonce_and_hash (fuel : nat) (difficulty : Z) (b : Block.t) :
  let b' := snd (Block.mineBlock fuel difficulty b) in
  Block.index b' = Block.index b
  /\ Block.previousHash b' = Block.previousHash b
  /\ Block.timestamp b' = Block.timestamp b
  /\ Block.transactions b' = Block.transactions b
  /\ Block.difficulty b' = Block.difficulty b
  /\ Block.merkleRoot b' = Block.merkleRoot b
  /\ Block.originTransactionHash b' = Block.originTransactionHash b.
Proof.
  intros b'. pose proof (mineBlock_sealed fuel difficulty b) as E.
  fold b' in E. unfold sealed in E. inversion E. auto 10.
Qed.

Lemma item_last {A} (l : list A) (x : A) :
  Block.item (l ++ [x]) (Z.of_nat (length (l ++ [x])) - 1) = Some x.
Proof.
  unfold Block.item. rewrite length_app; simpl.
  replace (Z.of_nat (length l + 1) - 1) with (Z.of_nat (length l)) by lia.
  destruct (Z.ltb_spec (Z.of_nat (length l)) 0) as [H|_]; [lia|].
  rewrite Nat2Z.id, nth_error_app2, Nat.sub_diag by lia. reflexivity.
Qed.

Lemma item_second_to_last {A} (l : list A) (y x : A) :
  Block.item ((l ++ [y]) ++ [x]) (Z.of_nat (length ((l ++ [y]) ++ [x])) - 2) = Some y.
Proof.
  unfold Block.item. rewrite !length_app; simpl.
  replace (Z.of_nat (length l + 1 + 1) - 2) with (Z.of_nat (length l)) by lia.
  destruct (Z.ltb_spec (Z.of_nat (length l)) 0) as [H|_]; [lia|].
  rewrite Nat2Z.id, <- app_assoc, nth_error_app2, Nat.sub_diag by lia. reflexivity.
Qed.

(** What [calculateLastOriginTransactionHash] computes, in terms of the
    truthiness test it makes. *)
Lemma calculateLastOriginTransactionHash_rev (txs : list Transaction.t) :
  Block.calculateLastOriginTransactionHash txs =
  match rev txs with
  | [] => None
  | lastTransaction :: before =>
      if truthy (Transaction.originTransactionHash lastTransaction)
      then Transaction.originTransactionHash lastTransaction
      else match before with
           | [] => None
           | secondToLast :: _ => Transaction.originTransactionHash secondToLast
           end
  end.
Proof.
  destruct (rev txs) as [|lastT before] eqn:E.
  - apply (f_equal (@rev _)) in E. rewrite rev_involutive in E. subst. reflexivity.
  - apply (f_equal (@rev _)) in E. rewrite rev_involutive in E. simpl in E. subst txs.
    unfold Block.calculateLastOriginTransactionHash.
    rewrite item_last.
    destruct (Z.eqb_spec (Z.of_nat (length (rev before ++ [lastT]))) 0) as [H|_].
    { rewrite length_app in H; simpl in H; lia. }
    destruct (truthy (Transaction.originTransactionHash lastT)); [reflexivity|].
    destruct before as [|second before']; [reflexivity|].
    simpl rev. rewrite item_second_to_last. reflexivity.
Qed.

Lemma truthy_wellformed (o : option string) :
  o <> Some "" -> truthy o = match o with Some _ => true | None => false end.
Proof. destruct o as [[|c s]|]; simpl; congruence. Qed.

(** C6, as the code has it. The origin transaction hash a block derives
    from its transactions is the one of the last transaction when that one
    is neither [null] nor the empty string; otherwise it is the origin hash
    of the second-to-last transaction as it stands ([null], the empty
    string or a hash); and it is [null] when there is no transaction, or a
    single one whose origin hash is [null] or empty. *)
Theorem derived_origin_transaction_hash_by_truthiness
    (index : Z) (previousHash : option string) (timestamp : Z)
    (txs : list Transaction.t) (difficulty : Z) :
  Block.originTransactionHash (Block.new index previousHash timestamp txs difficulty)
  = Block.calculateLastOriginTransactionHash txs
  /\ Block.calculateLastOriginTransactionHash txs =
     match rev txs with
     | [] => None
     | lastTransaction :: before =>
         if truthy (Transaction.originTransactionHash lastTransaction)
         then Transaction.originTransactionHash lastTransaction
         else
           match before with
           | [] => None
           | secondToLast :: _ => Transaction.originTransactionHash secondToLast
           end
     end.
Proof.
  split; [reflexivity|]. apply calculateLastOriginTransactionHash_rev.
Qed.

(** C6, as stated, fails on the code where an origin hash is the empty
    string, whichever way "has one" is read. Read as "is not null": the
    last of two transactions has the origin hash [""], and the block takes
    the origin hash of the one before it. Read as "is neither null nor
    empty": neither of two transactions has an origin hash, and the block
    takes [""], not [null]. *)
Lemma derived_origin_transaction_hash_on_empty_strings :
  Block.calculateLastOriginTransactionHash Sample.emptyOriginLast = Some "11aa"%string
  /\ specifiedOrigin present Sample.emptyOriginLast = Some ""%string
  /\ Block.calculateLastOriginTransactionHash Sample.emptyOriginBeforeLast = Some ""%string
  /\ specifiedOrigin truthy Sample.emptyOriginBeforeLast = None.
Proof. vm_compute. repeat split; reflexivity. Qed.

(** Where no transaction carries the empty string as origin hash, the two
    readings agree and the derived origin hash is the specified one. *)
Lemma derived_origin_transaction_hash_without_empty_strings
    (txs : list Transaction.t) :
  originsWellFormed txs ->
  Block.calculateLastOriginTransactionHash txs = specifiedOrigin present txs.
Proof.
  intros WF. rewrite calculateLastOriginTransactionHash_rev. unfold specifiedOrigin.
  destruct (rev txs) as [|lastT before] eqn:E; [reflexivity|].
  assert (In lastT txs) as HIn by (apply in_rev; rewrite E; left; reflexivity).
  unfold originsWellFormed in WF. rewrite List.Forall_forall in WF.
  rewrite (truthy_wellformed _ (WF _ HIn)).
  destruct (Transaction.originTransactionHash lastT); [reflexivity|].
  destruct before as [|second before']; [reflexivity|].
  destruct (Transaction.originTransactionHash second); reflexivity.
Qed.

(** ** Transactions: validity, signing and the constructor *)

Section TransactionProperties.
Context {EC : Elliptic}.

Lemma truthy_Some (o : option string) :
  truthy o = true <-> exists s, o = Some s /\ s <> "".
Proof.
  destruct o as [[|c s]|]; simpl; split; try discriminate.
  - intros (s & E & N); inversion E; subst; congruence.
  - intros _. eexists; split; [reflexivity|discriminate].
  - intros (s0 & E & N). reflexivity.
  - intros (s & E & N); discriminate.
Qed.

Lemma isValid_reward (tx : Transaction.t) :
  Transaction.fromAddress tx = None -> Transaction.isValid tx = Return true.
Proof. unfold Transaction.isValid; intros ->; reflexivity. Qed.

(** On a transaction with a sender, [isValid] returns [b] exactly when the
    checks go through and [verify] answers [b]. *)
Lemma isValid_signed (tx : Transaction.t) (b : bool) :
  Transaction.fromAddress tx <> None ->
  (Transaction.isValid tx = Return b <-> verifies tx b).
Proof.
  intros Hfrom. unfold Transaction.isValid, Transaction.checkSignature, verifies.
  destruct (Transaction.fromAddress tx) as [from|]; [clear Hfrom|congruence].
  destruct (Transaction.signature tx) as [[|c sg]|] eqn:Esg; simpl.
  - split; [discriminate|]. intros (sg & pk & key & E & N & _). congruence.
  - destruct (Transaction.publicKey tx) as [[|c' pk]|] eqn:Epk; simpl.
    + split; [discriminate|]. intros (sg' & pk' & key & _ & _ & E & N & _). congruence.
    + destruct (keyFromPublic (String c' pk)) as [key|m] eqn:Ekey; simpl.
      * destruct (verify key (Transaction.calculateHash tx) (String c sg)) as [ok|m] eqn:Ev.
        -- split.
           ++ intros [= <-]. exists (String c sg), (String c' pk), key. repeat split; auto; discriminate.
           ++ intros (sg' & pk' & key' & [= <-] & _ & [= <-] & _ & Ek' & Ev').
              rewrite Ekey in Ek'. injection Ek' as <-. congruence.
        -- split; [discriminate|].
           intros (sg' & pk' & key' & [= <-] & _ & [= <-] & _ & Ek' & Ev').
           rewrite Ekey in Ek'. injection Ek' as <-. congruence.
      * split; [discriminate|].
        intros (sg' & pk' & key' & _ & _ & [= <-] & _ & Ek' & _). congruence.
    + split; [discriminate|]. intros (sg' & pk' & key & _ & _ & E & _). congruence.
  - split; [discriminate|]. intros (sg & pk & key & E & _). congruence.
Qed.

(** The signature checks of [isValid] do not go through for want of a
    signature. *)
Lemma isValid_unsigned (tx : Transaction.t) :
  Transaction.fromAddress tx <> None ->
  truthy (Transaction.signature tx) = false ->
  Transaction.isValid tx = Throw "Transaction signature is missing or invalid!".
Proof.
  unfold Transaction.isValid. intros From Unsigned.
  destruct (Transaction.fromAddress tx); [|congruence].
  rewrite Unsigned. reflexivity.
Qed.

(** C1, as the code has it by design. [isValid] returns [true] when the
    sender is absent, and when the signature is present, the public key is
    present and read by the curve, the address derived from the public key
    is the sender, and the signature verifies under the public key over
    the recomputed hash. It returns [true] only when the sender is absent
    or the signature and the public key are present, the key is read and
    the signature verifies. A failure is a [false] when [verify] answers
    [false]; it is an exception, not a [false], when the signature is
    missing, or the public key is missing, or the curve rejects the key or
    the signature. *)
Theorem isValid_outcomes (tx : Transaction.t) :
  (Transaction.fromAddress tx = None -> Transaction.isValid tx = Return true)
  /\ (forall from pk,
        Transaction.fromAddress tx = Some from ->
        Transaction.publicKey tx = Some pk ->
        Wallet.shortAddress pk = from ->
        verifies tx true ->
        Transaction.isValid tx = Return true)
  /\ (Transaction.isValid tx = Return true ->
      Transaction.fromAddress tx = None \/ verifies tx true)
  /\ (Transaction.fromAddress tx <> None -> verifies tx false ->
      Transaction.isValid tx = Return false)
  /\ (Transaction.fromAddress tx <> None ->
      truthy (Transaction.signature tx) = false ->
      Transaction.isValid tx = Throw "Transaction signature is missing or invalid!")
  /\ (Transaction.fromAddress tx <> None -> ~ (exists b, verifies tx b) ->
      exists msg, Transaction.isValid tx = Throw msg).
Proof.
  split; [apply isValid_reward|].
  split.
  { intros from pk From _ _ Verified. apply isValid_signed; [congruence|exact Verified]. }
  split.
  { intros Valid. destruct (Transaction.fromAddress tx) as [from|] eqn:From; [|auto].
    right. apply isValid_signed; [congruence|exact Valid]. }
  split.
  { intros From Refused. apply isValid_signed; assumption. }
  split; [apply isValid_unsigned|].
  intros From Stuck. destruct (Transaction.isValid tx) as [b|msg] eqn:Valid.
  - exfalso. apply Stuck. exists b. apply isValid_signed; assumption.
  - exists msg. reflexivity.
Qed.

Lemma calculateHash_hashedFields (tx tx' : Transaction.t) :
  hashedFields tx' = hashedFields tx ->
  Transaction.calculateHash tx' = Transaction.calculateHash tx.
Proof.
  unfold hashedFields, Transaction.calculateHash, Transaction.hashData.
  intros E. inversion E. congruence.
Qed.

Lemma calculateHash_signed (sg pk : option string) (h : string) (tx : Transaction.t) :
  Transaction.calculateHash
    (Transaction.setHash h (Transaction.setPublicKey pk (Transaction.setSignature sg tx)))
  = Transaction.calculateHash tx.
Proof. reflexivity. Qed.

(** C4. On a transaction whose stored hash is its recomputed hash, signing
    (with the wallet of an address, or with a key pair) leaves the hash as
    it was, whether the signing succeeds or throws: the hash is computed
    from sender, recipient, amount (8 decimals), token fields, origin hash
    and timestamp only, none of which signing assigns. *)
Theorem signing_keeps_hash (dir : gmap string Wallet.t) (address : string)
    (keyPair : KeyPair) (tx : Transaction.t) :
  Transaction.hash tx = Transaction.calculateHash tx ->
  Transaction.hash (snd (Transaction.signWithAddress dir address tx)) = Transaction.hash tx
  /\ Transaction.hash (snd (Transaction.signWithKeyPair keyPair tx)) = Transaction.hash tx
  /\ (forall tx', hashedFields tx' = hashedFields tx ->
                  Transaction.calculateHash tx' = Transaction.calculateHash tx).
Proof.
  intros Hhash. split; [|split].
  - unfold Transaction.signWithAddress.
    destruct (Wallet.loadWallet dir address) as [wallet|m]; [|reflexivity].
    destruct (keyFromPrivate (Wallet.privateKey wallet)) as [kp|m]; [|reflexivity].
    destruct (sign kp (Transaction.calculateHash tx)) as [der|m]; [|reflexivity].
    simpl. symmetry. exact Hhash.
  - unfold Transaction.signWithKeyPair.
    destruct (sign keyPair (Transaction.calculateHash tx)) as [der|m]; [|reflexivity].
    simpl. symmetry. exact Hhash.
  - intros tx'. apply calculateHash_hashedFields.
Qed.

End TransactionProperties.

Lemma signing_keeps_hash_witness :
  Transaction.hash Sample.transfer = Transaction.calculateHash Sample.transfer
  /\ fst (Transaction.signWithAddress (EC := ModelCurve.curve)
            Sample.wallets Sample.alice Sample.transfer) = Return tt
  /\ Transaction.hash (snd (Transaction.signWithAddress (EC := ModelCurve.curve)
                              Sample.wallets Sample.alice Sample.transfer))
     = Transaction.hash Sample.transfer.
Proof.
  assert (H : Transaction.hash Sample.transfer = Transaction.calculateHash Sample.transfer)
    by (vm_compute; reflexivity).
  split; [exact H|]. split; [vm_compute; reflexivity|].
  exact (proj1 (signing_keeps_hash (EC := ModelCurve.curve) Sample.wallets Sample.alice
                  Sample.aliceKey Sample.transfer H)).
Defined.

Lemma hash_setHash (h : string) (tx : Transaction.t) :
  Transaction.hash (Transaction.setHash h tx) = h.
Proof. reflexivity. Qed.

Lemma calculateHash_setHash (h : string) (tx : Transaction.t) :
  Transaction.calculateHash (Transaction.setHash h tx) = Transaction.calculateHash tx.
Proof. unfold Transaction.calculateHash. apply (f_equal Sha256.sha256). reflexivity. Qed.

(** The JSON text the constructor hashes: the members that are assigned
    when it computes the hash. *)
Lemma constructor_hash_text (fromAddress : option string) (toAddress : string)
    (amount : Amount.t) (timestamp : Z) (signature blockHash : option string)
    (originTransactionHash publicKey : option string) :
  Transaction.calculateHash
    (Transaction.partial fromAddress toAddress amount timestamp signature blockHash
                         originTransactionHash publicKey)
  = Sha256.sha256 (Json.stringify
      [ ("fromAddress", Json.ofString fromAddress);
        ("toAddress", Json.JString toAddress);
        ("amount", Json.JString (Amount.toFixed8 amount));
        ("originTransactionHash", Json.ofString originTransactionHash);
        ("timestamp", Json.JNumber timestamp) ]).
Proof.
  unfold Transaction.calculateHash. apply (f_equal Sha256.sha256).
  unfold Json.stringify.
  apply (f_equal (fun members => "{" +:+ Json.joinWith "," members +:+ "}")).
  destruct fromAddress, originTransactionHash; reflexivity.
Qed.

(** C8, as the code has it. The hash the constructor sets is the same
    whatever token fields it is given: it is the SHA-256 of the JSON text of
    sender, recipient, amount, origin hash and timestamp, in which the four
    token members are left out, since they are not assigned yet when the
    hash is computed. The stored hash is the recomputed hash, which reads
    the token fields, once it is recalculated explicitly, as [createToken]
    does. *)
Theorem constructor_hash_leaves_token_fields_out
    (fromAddress : option string) (toAddress : string)
    (amount : Amount.t) (timestamp : Z) (signature blockHash : option string)
    (originTransactionHash publicKey : option string)
    (index_in_block tokenId : option Z) (tokenName tokenSymbol : option string)
    (tokenTotalSupply contractId : option Z) (method params result : option string)
    (name symbol creatorAddress : string) (totalSupply id : Z) :
  let built := Transaction.new fromAddress toAddress amount timestamp signature blockHash
                 originTransactionHash publicKey index_in_block
                 tokenId tokenName tokenSymbol tokenTotalSupply
                 contractId method params result in
  let bare := Transaction.new fromAddress toAddress amount timestamp signature blockHash
                originTransactionHash publicKey index_in_block
                None None None None
                contractId method params result in
  let created := Blockchain.createTokenTransaction name symbol totalSupply creatorAddress
                   id timestamp in
  Transaction.hash built = Transaction.hash bare
  /\ Transaction.hash built
     = Sha256.sha256 (Json.stringify
         [ ("fromAddress", Json.ofString fromAddress);
           ("toAddress", Json.JString toAddress);
           ("amount", Json.JString (Amount.toFixed8 amount));
           ("originTransactionHash", Json.ofString originTransactionHash);
           ("timestamp", Json.JNumber timestamp) ])
  /\ Transaction.hash created = Transaction.calculateHash created
  /\ hashedFields created
     = (None, creatorAddress, Amount.toFixed8 (Amount.ofInteger totalSupply),
        Val id, Val name, Val symbol, Val totalSupply, None, timestamp).
Proof.
  intros built bare created. split; [reflexivity|]. split; [|split].
  - apply constructor_hash_text.
  - unfold created, Blockchain.createTokenTransaction. cbv zeta.
    rewrite hash_setHash, calculateHash_setHash. reflexivity.
  - unfold created, Blockchain.createTokenTransaction, hashedFields. cbv zeta.
    cbn [Transaction.fromAddress Transaction.toAddress Transaction.amount
         Transaction.tokenId Transaction.tokenName Transaction.tokenSymbol
         Transaction.tokenTotalSupply Transaction.originTransactionHash
         Transaction.timestamp Transaction.setHash Transaction.setSignature
         Transaction.setToken Transaction.new8 Transaction.new].
    reflexivity.
Qed.

(** C8, as stated, fails on the code: the hash the constructor sets on a
    token creation is not the recomputed hash of the same transaction
    without token fields (whose four token members are [null] and are part
    of the hashed text); it is not even the recomputed hash of the
    transaction the constructor just built without them. *)
Lemma constructor_hash_is_not_the_tokenless_hash :
  Transaction.hash Sample.tokenCreation <> Transaction.calculateHash Sample.tokenless
  /\ Transaction.hash Sample.tokenless <> Transaction.calculateHash Sample.tokenless
  /\ hashedFields Sample.tokenless
     = (None, Sample.alice, "1000.00000000"%string, Null, Null, Null, Null, None,
        Sample.clock).
Proof.
  split; [|split].
  - vm_compute. discriminate.
  - vm_compute. discriminate.
  - reflexivity.
Qed.

(** The defect that C1 as amended leaves out: [isValid] never compares the
    address derived from the public key with the sender, as
    [validateTransaction] of the command-line menu does. A transaction with
    a sender passes as soon as its signature verifies under the public key
    it carries, whatever address that key derives. *)
Lemma isValid_does_not_derive_the_address {EC : Elliptic} (tx : Transaction.t) :
  Transaction.fromAddress tx <> None ->
  verifies tx true ->
  Transaction.isValid tx = Return true.
Proof. intros From Verified. apply isValid_signed; assumption. Qed.

(** C1, as stated, fails on the code. A transfer nobody signed makes
    [isValid] throw, where the claim has the failure reported as the
    boolean [false]; this is so under any curve, since the curve is not
    called. *)
Lemma isValid_throws_on_an_unsigned_transfer :
  Transaction.fromAddress Sample.unsignedTransfer = Some Sample.alice
  /\ Transaction.signature Sample.unsignedTransfer = None
  /\ specifiedValidity (EC := ModelCurve.curve) Sample.unsignedTransfer = false
  /\ Transaction.isValid (EC := ModelCurve.curve) Sample.unsignedTransfer
     = Throw "Transaction signature is missing or invalid!".
Proof. vm_compute. repeat split; reflexivity. Qed.

Lemma isValid_outcomes_witness :
  Transaction.fromAddress Sample.unsignedTransfer <> None
  /\ truthy (Transaction.signature Sample.unsignedTransfer) = false
  /\ Transaction.isValid (EC := ModelCurve.curve) Sample.unsignedTransfer
     = Throw "Transaction signature is missing or invalid!".
Proof.
  assert (From : Transaction.fromAddress Sample.unsignedTransfer <> None)
    by discriminate.
  assert (Unsigned : truthy (Transaction.signature Sample.unsignedTransfer) = false)
    by reflexivity.
  split; [exact From|]. split; [exact Unsigned|].
  destruct (isValid_outcomes (EC := ModelCurve.curve) Sample.unsignedTransfer)
    as (_ & _ & _ & _ & Throws & _).
  exact (Throws From Unsigned).
Defined.

(** ** The chain *)

Section ChainProperties.
Context {EC : Elliptic}.

Lemma replacing_flag_restored (s : Blockchain.t) :
  Blockchain.isReplacingChain s = false ->
  Blockchain.setIsReplacingChain false (Blockchain.setIsReplacingChain true s) = s.
Proof. destruct s; simpl; intros ->; reflexivity. Qed.

(** What [replaceChain] does, path by path: it leaves the singleton as it
    is unless the received chain is longer, valid and of greater cumulative
    difficulty. *)
Lemma replaceChain_paths (newChainData : list Block.data) (s : Blockchain.t) :
  snd (Blockchain.replaceChain newChainData s) = s
  \/ ((length (Blockchain.chain s) < length newChainData)%nat
      /\ Blockchain.isValidChain newChainData = Return true
      /\ Blockchain.calculateCumulativeDifficulty
           (map Block.toJSON (Blockchain.chain s))
         < Blockchain.calculateCumulativeDifficulty newChainData).
Proof.
  unfold Blockchain.replaceChain, Blockchain.mbind, Blockchain.get,
    Blockchain.finally, Blockchain.modify, Blockchain.lift, Blockchain.ret.
  destruct (Blockchain.isReplacingChain s) eqn:Flag; [left; reflexivity|].
  cbn [Blockchain.chain Blockchain.setIsReplacingChain].
  destruct (Nat.leb_spec (length newChainData) (length (Blockchain.chain s))) as [Len|Len].
  { left. simpl. apply replacing_flag_restored, Flag. }
  destruct (Blockchain.isValidChain newChainData) as [[|]|msg] eqn:Valid.
  - cbn [negb].
    destruct (Z.gtb_spec (Blockchain.calculateCumulativeDifficulty newChainData)
                (Blockchain.calculateCumulativeDifficulty
                   (map Block.toJSON (Blockchain.chain s)))) as [Work|Work].
    + right. repeat split; auto.
    + left. simpl. apply replacing_flag_restored, Flag.
  - left. simpl. apply replacing_flag_restored, Flag.
  - left. simpl. apply replacing_flag_restored, Flag.
Qed.

(** C3. [replaceChain] is a no-op, on the chain and on everything else the
    singleton holds (mempool, store, flags, messages sent), whenever the
    received chain is not longer than the local one, or its cumulative
    difficulty is not strictly greater; whenever it changes anything, the
    received chain is strictly longer, valid, and of strictly greater
    cumulative difficulty. *)
Theorem replaceChain_only_for_a_better_chain
    (newChainData : list Block.data) (s : Blockchain.t) :
  ((length newChainData <= length (Blockchain.chain s))%nat
   \/ Blockchain.calculateCumulativeDifficulty newChainData
      <= Blockchain.calculateCumulativeDifficulty (map Block.toJSON (Blockchain.chain s))
   -> snd (Blockchain.replaceChain newChainData s) = s)
  /\ (snd (Blockchain.replaceChain newChainData s) <> s
      -> (length (Blockchain.chain s) < length newChainData)%nat
         /\ Blockchain.isValidChain newChainData = Return true
         /\ Blockchain.calculateCumulativeDifficulty
              (map Block.toJSON (Blockchain.chain s))
            < Blockchain.calculateCumulativeDifficulty newChainData).
Proof.
  destruct (replaceChain_paths newChainData s) as [Same|(Len & Valid & Work)]; split.
  - intros _; exact Same.
  - intros Changed; contradiction.
  - intros [H|H]; lia.
  - intros _; auto.
Qed.

Lemma hasHash_true (txs : list Transaction.t) (tx : Transaction.t) :
  Blockchain.hasHash txs tx = true
  <-> exists existingTx, In existingTx txs
                         /\ Transaction.hash existingTx = Transaction.hash tx.
Proof.
  unfold Blockchain.hasHash. rewrite existsb_exists. split.
  - intros (x & HIn & E). exists x. split; [exact HIn|]. apply String.eqb_eq, E.
  - intros (x & HIn & E). exists x. split; [exact HIn|]. apply String.eqb_eq, E.
Qed.

Lemma notYetMined_nil (s : Blockchain.t) :
  Forall (minedAlready s) (Blockchain.pendingTransactions s) ->
  Blockchain.notYetMined s = [].
Proof.
  unfold Blockchain.notYetMined. generalize (Blockchain.pendingTransactions s).
  induction 1 as [|tx txs (block & existingTx & HB & HT & E) _ IH]; [reflexivity|].
  cbn [List.filter].
  assert (existsb (fun b => Blockchain.hasHash (Block.transactions b) tx)
                  (Blockchain.chain s) = true) as ->.
  { apply existsb_exists. exists block. split; [exact HB|].
    apply hasHash_true. exists existingTx. auto. }
  exact IH.
Qed.

(** C9. When [minePendingTransactions] gets the lock on a mempool that is
    not empty and whose every transaction is in some block of the chain
    already, and the store answers its one statement, it produces no block:
    the chain is as before, nothing is broadcast, the in-memory list of
    pending transactions is emptied, and so is the whole table
    [pending_transactions], whatever rows it held; the lock is released.
    The set of hashes admitted so far is left as it was. *)
Theorem mining_an_already_mined_mempool
    (fuel : nat) (nowReward nowBlock : Z) (miningRewardAddress : option string)
    (s : Blockchain.t) (db' : Store.t) :
  "miningLock" ∉ Blockchain.locks s ->
  Blockchain.pendingTransactions s <> [] ->
  Forall (minedAlready s) (Blockchain.pendingTransactions s) ->
  Store.query (Blockchain.db s) = (Store.Ok, db') ->
  let r := Blockchain.minePendingTransactions fuel nowReward nowBlock
             miningRewardAddress s in
  fst r = Block.Finished (Return tt)
  /\ Blockchain.chain (snd r) = Blockchain.chain s
  /\ Blockchain.pendingTransactions (snd r) = []
  /\ Store.pending_transactions (Blockchain.db (snd r)) = []
  /\ Blockchain.sent (snd r) = Blockchain.sent s
  /\ Blockchain.transactionPool (snd r) = Blockchain.transactionPool s
  /\ Blockchain.locks (snd r) = Blockchain.locks s.
Proof.
  intros Free NonEmpty Mined Answer r. subst r.
  unfold Blockchain.minePendingTransactions, Blockchain.acquireLock.
  rewrite bool_decide_eq_false_2 by exact Free.
  unfold Blockchain.mineBody.
  cbn [Blockchain.pendingTransactions Blockchain.setLocks].
  destruct (Blockchain.pendingTransactions s) as [|tx txs] eqn:Pending; [congruence|].
  cbn [length Nat.eqb].
  assert (Blockchain.notYetMined
            (Blockchain.setLocks (Blockchain.locks s ∪ {["miningLock"]}) s) = []) as ->.
  { apply notYetMined_nil. cbn [Blockchain.pendingTransactions Blockchain.setLocks].
    rewrite Pending. exact Mined. }
  cbn [length Nat.eqb].
  unfold Blockchain.dropAllPending, Blockchain.mbind, Blockchain.modify, Blockchain.onDb,
    Store.clearPendingTransactions.
  cbn [Blockchain.db Blockchain.setPendingTransactions Blockchain.setLocks].
  rewrite Answer. cbn.
  repeat split; try reflexivity.
  cbn [Blockchain.locks Blockchain.releaseLock Blockchain.setLocks Blockchain.setDb
       Blockchain.setPendingTransactions].
  apply set_eq. intros name.
  rewrite elem_of_difference, elem_of_union, elem_of_singleton.
  split; [tauto|]. intros Held. split; [tauto|]. intros ->. contradiction.
Qed.

Lemma hasRow_app (h : string) (rows more : list Store.pendingRow) :
  Store.hasRow h (rows ++ more) = Store.hasRow h rows || Store.hasRow h more.
Proof. unfold Store.hasRow. apply existsb_app. Qed.

(** C5 fails on the code. [addPendingTransaction] never looks at the
    amount: a transaction whose amount is NaN, negative or zero and which
    passes [isValid] (any reward does, and so does any transfer signed with
    some key) is appended to the mempool, written to [pending_transactions]
    and broadcast, as soon as its hash is new and the store answers. *)
Theorem addPendingTransaction_admits_any_amount
    (tx : Transaction.t) (s : Blockchain.t) (db' : Store.t) :
  Amount.notPositive (Transaction.amount tx) = true ->
  Transaction.isValid tx = Return true ->
  Transaction.hash tx ∉ Blockchain.transactionPool s ->
  Store.query (Blockchain.db s) = (Store.Ok, db') ->
  let r := Blockchain.addPendingTransaction tx s in
  fst r = Return tt
  /\ Blockchain.pendingTransactions (snd r) = Blockchain.pendingTransactions s ++ [tx]
  /\ Transaction.hash tx ∈ Blockchain.transactionPool (snd r)
  /\ Store.hasRow (Transaction.calculateHash tx)
                  (Store.pending_transactions (Blockchain.db (snd r))) = true
  /\ Blockchain.sent (snd r) = Blockchain.sent s ++ [P2p.NEW_TRANSACTION tx].
Proof.
  intros _ Valid New Answer r. subst r.
  unfold Blockchain.addPendingTransaction, Blockchain.broadcastTransaction,
    Blockchain.broadcast, Blockchain.mbind, Blockchain.lift,
    Blockchain.get, Blockchain.modify, Blockchain.onDb, Store.savePending.
  rewrite Valid. cbn [negb].
  rewrite bool_decide_eq_false_2 by exact New.
  cbn [Blockchain.db Blockchain.setPendingTransactions Blockchain.setTransactionPool].
  rewrite Answer.
  cbn [fst snd Blockchain.pendingTransactions Blockchain.transactionPool Blockchain.db
       Blockchain.sent Blockchain.setDb Blockchain.setSent
       Blockchain.setPendingTransactions Blockchain.setTransactionPool
       Store.pending_transactions Store.r_hash Transaction.toJSON].
  repeat split.
  - apply elem_of_union_r, elem_of_singleton. reflexivity.
  - destruct (Store.hasRow (Transaction.calculateHash tx) (Store.pending_transactions db'))
      eqn:Row; [exact Row|].
    rewrite hasRow_app, Row. unfold Store.hasRow. cbn [existsb Store.r_hash].
    rewrite String.eqb_refl. reflexivity.
Qed.

(** C2 fails on the code. [addBlock] appends the block to the chain before
    it saves it: when the four checks pass and the save throws (any store
    error but a duplicate entry), [addBlock] reports [false] and the block
    stays at the end of the in-memory chain. *)
Theorem addBlock_keeps_block_when_save_fails
    (newBlock previousBlock : Block.t) (s : Blockchain.t)
    (code : string) (db' : Store.t) :
  Blockchain.getLatestBlock s = Some previousBlock ->
  Block.previousHash newBlock = Some (Block.hash previousBlock) ->
  Block.hasValidTransactions newBlock = Return true ->
  Block.hash newBlock = Block.calculateHash newBlock ->
  Block.missesDifficulty (Block.hash newBlock) (Blockchain.difficulty s) = Return false ->
  Store.query (Blockchain.db s) = (Store.Error code, db') ->
  code <> "ER_DUP_ENTRY" ->
  let r := Blockchain.addBlock newBlock s in
  fst r = Return false
  /\ Blockchain.chain (snd r) = Blockchain.chain s ++ [newBlock].
Proof.
  intros Latest Link Valid Hash Work Answer NotDup r. subst r.
  unfold Blockchain.addBlock, Blockchain.latestBlock, Blockchain.mbind, Blockchain.get,
    Blockchain.lift, Blockchain.ret, Blockchain.modify, Blockchain.tryCatch,
    Blockchain.onDb, Store.saveBlock.
  rewrite Latest. cbn match.
  rewrite bool_decide_eq_true_2 by exact Link.
  rewrite Valid. cbn [negb].
  rewrite <- Hash, String.eqb_refl. cbn [negb].
  rewrite Work.
  cbn [Blockchain.db Blockchain.setChain].
  rewrite Answer.
  apply String.eqb_neq in NotDup. rewrite NotDup.
  split; reflexivity.
Qed.

End ChainProperties.

Lemma replaceChain_only_for_a_better_chain_witness :
  (length Sample.sameChain <= length (Blockchain.chain (Sample.node [])))%nat
  /\ snd (Blockchain.replaceChain (EC := ModelCurve.curve) Sample.sameChain (Sample.node []))
     = Sample.node [].
Proof.
  assert (Short : (length Sample.sameChain
                   <= length (Blockchain.chain (Sample.node [])))%nat)
    by (vm_compute; lia).
  split; [exact Short|].
  apply (proj1 (replaceChain_only_for_a_better_chain (EC := ModelCurve.curve)
                  Sample.sameChain (Sample.node []))).
  left. exact Short.
Defined.

Lemma addPendingTransaction_admits_any_amount_witness :
  Amount.notPositive (Transaction.amount Sample.zeroReward) = true
  /\ Transaction.isValid (EC := ModelCurve.curve) Sample.zeroReward = Return true
  /\ let r := Blockchain.addPendingTransaction (EC := ModelCurve.curve)
                Sample.zeroReward (Sample.node []) in
     fst r = Return tt
     /\ Blockchain.pendingTransactions (snd r) = [Sample.zeroReward]
     /\ Blockchain.sent (snd r) = [P2p.NEW_TRANSACTION Sample.zeroReward].
Proof.
  assert (Bad : Amount.notPositive (Transaction.amount Sample.zeroReward) = true)
    by (vm_compute; reflexivity).
  assert (Valid : Transaction.isValid (EC := ModelCurve.curve) Sample.zeroReward
                  = Return true) by (vm_compute; reflexivity).
  assert (New : Transaction.hash Sample.zeroReward
                ∉ Blockchain.transactionPool (Sample.node []))
    by apply not_elem_of_empty.
  assert (Answer : Store.query (Blockchain.db (Sample.node []))
                   = (Store.Ok, Blockchain.db (Sample.node [])))
    by (vm_compute; reflexivity).
  pose proof (addPendingTransaction_admits_any_amount (EC := ModelCurve.curve)
                Sample.zeroReward (Sample.node []) (Blockchain.db (Sample.node []))
                Bad Valid New Answer) as (Done & Pending & _ & _ & Sent).
  split; [exact Bad|]. split; [exact Valid|].
  split; [exact Done|]. split; [exact Pending|exact Sent].
Defined.

Lemma addBlock_keeps_block_when_save_fails_witness :
  Blockchain.getLatestBlock (Sample.node [Store.Error "ER_LOCK_DEADLOCK"])
    = Some Sample.genesis
  /\ Block.hasValidTransactions (EC := ModelCurve.curve) Sample.minedBlock = Return true
  /\ Block.hash Sample.minedBlock = Block.calculateHash Sample.minedBlock
  /\ let r := Blockchain.addBlock (EC := ModelCurve.curve) Sample.minedBlock
                (Sample.node [Store.Error "ER_LOCK_DEADLOCK"]) in
     fst r = Return false
     /\ Blockchain.chain (snd r) = [Sample.genesis; Sample.minedBlock].
Proof.
  assert (Latest : Blockchain.getLatestBlock (Sample.node [Store.Error "ER_LOCK_DEADLOCK"])
                   = Some Sample.genesis) by (vm_compute; reflexivity).
  assert (Link : Block.previousHash Sample.minedBlock = Some (Block.hash Sample.genesis))
    by (vm_compute; reflexivity).
  assert (Valid : Block.hasValidTransactions (EC := ModelCurve.curve) Sample.minedBlock
                  = Return true) by (vm_compute; reflexivity).
  assert (Hash : Block.hash Sample.minedBlock = Block.calculateHash Sample.minedBlock)
    by (vm_compute; reflexivity).
  assert (Work : Block.missesDifficulty (Block.hash Sample.minedBlock)
                   (Blockchain.difficulty (Sample.node [Store.Error "ER_LOCK_DEADLOCK"]))
                 = Return false) by (vm_compute; reflexivity).
  assert (Answer : Store.query (Blockchain.db (Sample.node [Store.Error "ER_LOCK_DEADLOCK"]))
                   = (Store.Error "ER_LOCK_DEADLOCK", Blockchain.db (Sample.node [])))
    by (vm_compute; reflexivity).
  assert (NotDup : "ER_LOCK_DEADLOCK"%string <> "ER_DUP_ENTRY"%string) by discriminate.
  pose proof (addBlock_keeps_block_when_save_fails (EC := ModelCurve.curve)
                Sample.minedBlock Sample.genesis
                (Sample.node [Store.Error "ER_LOCK_DEADLOCK"]) _ _
                Latest Link Valid Hash Work Answer NotDup) as (Refused & Chain).
  split; [exact Latest|]. split; [exact Valid|]. split; [exact Hash|].
  split; [exact Refused|exact Chain].
Defined.

Lemma mining_an_already_mined_mempool_witness :
  ("miningLock" ∉ Blockchain.locks Sample.staleNode)
  /\ Blockchain.pendingTransactions Sample.staleNode <> []
  /\ Forall (minedAlready Sample.staleNode) (Blockchain.pendingTransactions Sample.staleNode)
  /\ length (Store.pending_transactions (Blockchain.db Sample.staleNode)) = 2%nat
  /\ let r := Blockchain.minePendingTransactions (EC := ModelCurve.curve) 0
                Sample.miningTime Sample.miningTime
                (Some "59a8277a36bffda17f9a997e5f7c23") Sample.staleNode in
     Blockchain.chain (snd r) = [Sample.genesis]
     /\ Blockchain.pendingTransactions (snd r) = []
     /\ Store.pending_transactions (Blockchain.db (snd r)) = [].
Proof.
  assert (Free : "miningLock" ∉ Blockchain.locks Sample.staleNode) by set_solver.
  assert (NonEmpty : Blockchain.pendingTransactions Sample.staleNode <> [])
    by discriminate.
  assert (Mined : Forall (minedAlready Sample.staleNode)
                         (Blockchain.pendingTransactions Sample.staleNode)).
  { constructor; [|constructor].
    exists Sample.genesis, Sample.genesisReward.
    split; [left; reflexivity|]. split; [|reflexivity].
    vm_compute. left. reflexivity. }
  assert (Answer : Store.query (Blockchain.db Sample.staleNode)
                   = (Store.Ok, Blockchain.db Sample.staleNode))
    by (vm_compute; reflexivity).
  pose proof (mining_an_already_mined_mempool (EC := ModelCurve.curve) 0
                Sample.miningTime Sample.miningTime
                (Some "59a8277a36bffda17f9a997e5f7c23") Sample.staleNode
                (Blockchain.db Sample.staleNode) Free NonEmpty Mined Answer)
    as (_ & Chain & Pending & Rows & _).
  split; [exact Free|]. split; [exact NonEmpty|]. split; [exact Mined|].
  split; [vm_compute; reflexivity|].
  split; [exact Chain|]. split; [exact Pending|exact Rows].
Defined.

(** The same slip on the mining path: the node mines the transfer of
    [alice] and the save of the new block fails; the call ends normally,
    the block is at the end of the chain, and the transfer is still
    pending. *)
Lemma mining_keeps_block_when_save_fails :
  let r := Sample.mining [Store.Error "ER_LOCK_DEADLOCK"] in
  fst r = Block.Finished (Return tt)
  /\ Blockchain.chain (snd r) = [Sample.genesis; Sample.minedBlock]
  /\ Blockchain.pendingTransactions (snd r) = [Sample.signedTransfer]
  /\ Store.saved (Blockchain.db (snd r)) = [Sample.genesis].
Proof. vm_compute. repeat split; reflexivity. Qed.

(* ===================================================================== *)
(** * Further properties of the code                                       *)
(* ===================================================================== *)

(** ** Mining *)

Lemma block_calculateHash_setHash (h : string) (b : Block.t) :
  Block.calculateHash (Block.setHash h b) = Block.calculateHash b.
Proof. unfold Block.calculateHash. apply (f_equal Sha256.sha256). reflexivity. Qed.

Lemma mineStep_hash (b : Block.t) :
  Block.hash (mineStep b) = Block.calculateHash (mineStep b).
Proof. unfold mineStep. cbv zeta. rewrite block_calculateHash_setHash. reflexivity. Qed.

Lemma mineStep_nonce (b : Block.t) : Block.nonce (mineStep b) = Block.nonce b + 1.
Proof. reflexivity. Qed.

Lemma mineBlock_step (fuel : nat) (difficulty : Z) (b : Block.t) :
  Block.missesDifficulty (Block.hash b) difficulty = Return true ->
  Block.mineBlock (S fuel) difficulty b = Block.mineBlock fuel difficulty (mineStep b).
Proof. intros Miss. cbn -[Block.missesDifficulty]. rewrite Miss. reflexivity. Qed.

Lemma mineBlock_stop (fuel : nat) (difficulty : Z) (b : Block.t) :
  Block.missesDifficulty (Block.hash b) difficulty = Return false ->
  Block.mineBlock fuel difficulty b = (Block.Finished (Return tt), b).
Proof. intros Met. destruct fuel; cbn -[Block.missesDifficulty]; rewrite Met; reflexivity. Qed.

Lemma missesDifficulty_met (hash : string) (difficulty : Z) :
  0 <= difficulty ->
  Block.missesDifficulty hash difficulty = Return false ->
  substring0 difficulty hash = repeatString (Z.to_nat difficulty) "0".
Proof.
  intros Pos. unfold Block.missesDifficulty, arrayJoin.
  destruct (Z.ltb_spec (difficulty + 1) 0) as [H|_]; [lia|].
  replace (difficulty + 1 - 1) with difficulty by lia. cbn [bind].
  destruct (String.eqb_spec (substring0 difficulty hash)
              (repeatString (Z.to_nat difficulty) "0")) as [E|N]; [auto|discriminate].
Qed.

(** X1. When [mineBlock] returns normally within its fuel, the hash of the
    block it leaves passes the difficulty test (it starts with [difficulty]
    zeroes when the difficulty is not negative); the block is the starting
    block after some number of executions of the loop body, at most the
    fuel, each adding 1 to the nonce; its hash is the hash of its contents
    if it was so at the start; and the same block results from any larger
    fuel. *)
Theorem mineBlock_finished_block (fuel : nat) (difficulty : Z) (b b' : Block.t) :
  Block.mineBlock fuel difficulty b = (Block.Finished (Return tt), b') ->
  Block.missesDifficulty (Block.hash b') difficulty = Return false
  /\ (0 <= difficulty ->
      substring0 difficulty (Block.hash b') = repeatString (Z.to_nat difficulty) "0")
  /\ (exists k, (k <= fuel)%nat
                /\ b' = Nat.iter k mineStep b
                /\ Block.nonce b' = Block.nonce b + Z.of_nat k)
  /\ (Block.hash b = Block.calculateHash b -> Block.hash b' = Block.calculateHash b')
  /\ (forall more, (fuel <= more)%nat ->
        Block.mineBlock more difficulty b = (Block.Finished (Return tt), b')).
Proof.
  revert b. induction fuel as [|fuel IH]; intros b Run.
  - cbn -[Block.missesDifficulty] in Run.
    destruct (Block.missesDifficulty (Block.hash b) difficulty) as [[|]|msg] eqn:Test;
      try discriminate.
    injection Run as <-.
    split; [exact Test|]. split; [intros Pos; apply missesDifficulty_met; auto|].
    split; [exists 0%nat; repeat split; [lia|simpl; lia]|].
    split; [auto|]. intros more _. apply mineBlock_stop, Test.
  - destruct (Block.missesDifficulty (Block.hash b) difficulty) as [[|]|msg] eqn:Test.
    + rewrite (mineBlock_step _ _ _ Test) in Run.
      destruct (IH _ Run) as (Met & Zeros & (k & Hk & Eb & En) & Hash & More).
      split; [exact Met|]. split; [exact Zeros|].
      split.
      { exists (S k). split; [lia|]. split.
        - rewrite Eb. symmetry. apply Nat.iter_succ_r.
        - rewrite En, mineStep_nonce. lia. }
      split; [intros _; apply Hash, mineStep_hash|].
      intros [|more] Hmore; [lia|].
      rewrite (mineBlock_step _ _ _ Test). apply More. lia.
    + rewrite (mineBlock_stop _ _ _ Test) in Run. injection Run as <-.
      split; [exact Test|]. split; [intros Pos; apply missesDifficulty_met; auto|].
      split; [exists 0%nat; repeat split; [lia|simpl; lia]|].
      split; [auto|]. intros more _. apply mineBlock_stop, Test.
    + cbn -[Block.missesDifficulty] in Run. rewrite Test in Run. discriminate.
Qed.

Lemma mineBlock_finished_block_witness :
  Block.mineBlock 4 2 (Block.new 0 None Sample.genesisTime [Sample.genesisReward] 2)
    = (Block.Finished (Return tt), Sample.genesis)
  /\ substring0 2 (Block.hash Sample.genesis) = "00"%string
  /\ Block.nonce Sample.genesis = 4.
Proof.
  assert (Run : Block.mineBlock 4 2
                  (Block.new 0 None Sample.genesisTime [Sample.genesisReward] 2)
                = (Block.Finished (Return tt), Sample.genesis))
    by (vm_compute; reflexivity).
  destruct (mineBlock_finished_block _ _ _ _ Run) as (_ & Zeros & _).
  split; [exact Run|]. split; [apply Zeros; lia|]. vm_compute. reflexivity.
Defined.

(** ** Validation of the transactions of a block *)

Section ValidationProperties.
Context {EC : Elliptic}.

Lemma verifyTransaction_ok (tx : Transaction.t) :
  Transaction.verifyTransaction tx = Return tt
  <-> Transaction.hash tx = Transaction.calculateHash tx.
Proof.
  unfold Transaction.verifyTransaction.
  destruct (String.eqb_spec (Transaction.hash tx) (Transaction.calculateHash tx));
    split; auto; try discriminate; congruence.
Qed.

Lemma validTransactions_cons (tx : Transaction.t) (rest : list Transaction.t) :
  Block.validTransactions (tx :: rest) =
  if String.eqb (Transaction.hash tx) (Transaction.calculateHash tx)
  then match Transaction.fromAddress tx with
       | None => Block.validTransactions rest
       | Some _ =>
           match Transaction.isValid tx with
           | Return true => Block.validTransactions rest
           | Return false => Return false
           | Throw msg => Throw msg
           end
       end
  else Throw "Transaction hash does not match expected hash!".
Proof.
  cbn [Block.validTransactions]. unfold Transaction.verifyTransaction.
  destruct (String.eqb (Transaction.hash tx) (Transaction.calculateHash tx));
    [|reflexivity].
  cbn [bind]. destruct (Transaction.fromAddress tx); [|reflexivity].
  destruct (Transaction.isValid tx) as [[|]|]; reflexivity.
Qed.

(** X2. [hasValidTransactions] returns [true] exactly when every
    transaction of the block has its recomputed hash as stored hash and,
    unless it is a reward, passes [isValid]. It returns [false] only for a
    transaction with a sender on which [isValid] returns [false]; a stored
    hash that is not the recomputed one makes it throw instead. *)
Theorem hasValidTransactions_cases (b : Block.t) :
  (Block.hasValidTransactions b = Return true <-> Forall sound (Block.transactions b))
  /\ (Block.hasValidTransactions b = Return false ->
      exists tx, In tx (Block.transactions b)
                 /\ Transaction.fromAddress tx <> None
                 /\ Transaction.isValid tx = Return false)
  /\ (forall tx rest, Block.transactions b = tx :: rest ->
        Transaction.hash tx <> Transaction.calculateHash tx ->
        Block.hasValidTransactions b
        = Throw "Transaction hash does not match expected hash!").
Proof.
  unfold Block.hasValidTransactions. generalize (Block.transactions b) as txs.
  intros txs. split; [|split].
  - induction txs as [|tx rest IH].
    + split; [constructor|reflexivity].
    + rewrite validTransactions_cons.
      destruct (String.eqb_spec (Transaction.hash tx) (Transaction.calculateHash tx))
        as [Hash|Hash].
      * destruct (Transaction.fromAddress tx) as [from|] eqn:From.
        -- destruct (Transaction.isValid tx) as [[|]|msg] eqn:Valid.
           ++ rewrite IH. split.
              ** intros H. constructor; [split; auto|exact H].
              ** intros H. inversion H; auto.
           ++ split; [discriminate|]. intros H. inversion H as [|? ? [_ [F|V]] _]; subst.
              ** congruence.
              ** congruence.
           ++ split; [discriminate|]. intros H. inversion H as [|? ? [_ [F|V]] _]; subst.
              ** congruence.
              ** congruence.
        -- rewrite IH. split.
           ++ intros H. constructor; [split; auto|exact H].
           ++ intros H. inversion H; auto.
      * split; [discriminate|]. intros H. inversion H as [|? ? [E _] _]. contradiction.
  - induction txs as [|tx rest IH]; [discriminate|].
    rewrite validTransactions_cons.
    destruct (String.eqb (Transaction.hash tx) (Transaction.calculateHash tx));
      [|discriminate].
    destruct (Transaction.fromAddress tx) as [from|] eqn:From.
    + destruct (Transaction.isValid tx) as [[|]|msg] eqn:Valid.
      * intros H. destruct (IH H) as (tx' & HIn & R). exists tx'. split; [right|]; auto.
      * intros _. exists tx. split; [left; reflexivity|]. split; [congruence|exact Valid].
      * discriminate.
    + intros H. destruct (IH H) as (tx' & HIn & R). exists tx'. split; [right|]; auto.
  - intros tx rest -> Hash. rewrite validTransactions_cons.
    apply String.eqb_neq in Hash. rewrite Hash. reflexivity.
Qed.

End ValidationProperties.

(** ** The transactions of a mined block *)

Lemma seen_In (h : string) (seen : list string) :
  existsb (String.eqb h) seen = true <-> In h seen.
Proof.
  rewrite existsb_exists. split.
  - intros (x & HIn & E). apply String.eqb_eq in E. subst. exact HIn.
  - intros HIn. exists h. split; [exact HIn|apply String.eqb_refl].
Qed.

Lemma uniqueByHash_hashes (seen : list string) (txs : list Transaction.t) (h : string) :
  In h (map Transaction.hash (Blockchain.uniqueByHash seen txs))
  <-> In h (map Transaction.hash txs) /\ ~ In h seen.
Proof.
  revert seen. induction txs as [|tx rest IH]; intros seen; cbn [Blockchain.uniqueByHash map].
  - simpl. tauto.
  - destruct (existsb (String.eqb (Transaction.hash tx)) seen) eqn:Seen.
    + apply seen_In in Seen. rewrite IH. simpl. split.
      * intros [H N]; auto.
      * intros [[E|H] N]; [subst; contradiction|auto].
    + assert (~ In (Transaction.hash tx) seen) as Fresh.
      { intros HIn. apply seen_In in HIn. congruence. }
      cbn [map]. simpl In. rewrite IH. simpl. split.
      * intros [E|[H N]]; [subst; auto|]. split; [auto|]. intros HIn; apply N; auto.
      * intros [[E|H] N]; [auto|].
        destruct (String.eqb_spec (Transaction.hash tx) h) as [E|D]; [auto|].
        right. split; [exact H|]. intros [E|HIn]; auto.
Qed.

Lemma uniqueByHash_NoDup (seen : list string) (txs : list Transaction.t) :
  List.NoDup (map Transaction.hash (Blockchain.uniqueByHash seen txs)).
Proof.
  revert seen. induction txs as [|tx rest IH]; intros seen; cbn [Blockchain.uniqueByHash map].
  - constructor.
  - destruct (existsb (String.eqb (Transaction.hash tx)) seen); [apply IH|].
    cbn [map]. constructor; [|apply IH].
    rewrite uniqueByHash_hashes. intros [_ N]. apply N. left. reflexivity.
Qed.

Lemma uniqueByHash_sublist (seen : list string) (txs : list Transaction.t) :
  Blockchain.uniqueByHash seen txs `sublist_of` txs.
Proof.
  revert seen. induction txs as [|tx rest IH]; intros seen; cbn [Blockchain.uniqueByHash].
  - constructor.
  - destruct (existsb (String.eqb (Transaction.hash tx)) seen).
    + apply sublist_cons, IH.
    + apply sublist_skip, IH.
Qed.

Lemma uniqueByHash_first (seen : list string) (before after : list Transaction.t)
    (tx : Transaction.t) :
  ~ In (Transaction.hash tx) (map Transaction.hash before) ->
  ~ In (Transaction.hash tx) seen ->
  In tx (Blockchain.uniqueByHash seen (before ++ tx :: after)).
Proof.
  revert seen. induction before as [|x before IH]; intros seen NB NS;
    cbn [app Blockchain.uniqueByHash].
  - destruct (existsb (String.eqb (Transaction.hash tx)) seen) eqn:Seen.
    + apply seen_In in Seen. contradiction.
    + left. reflexivity.
  - simpl in NB.
    destruct (existsb (String.eqb (Transaction.hash x)) seen).
    + apply IH; auto.
    + right. apply IH; [auto|]. intros [E|H]; auto.
Qed.

(** X3. The transactions [minePendingTransactions] keeps after collapsing
    duplicates: no two of them have the same hash, they carry exactly the
    hashes of the list they come from, they stand in the order they had in
    it, and the one kept for a hash is the first of the list with that
    hash. *)
Theorem uniqueByHash_keeps_first_of_each_hash (txs : list Transaction.t) :
  List.NoDup (map Transaction.hash (Blockchain.uniqueByHash [] txs))
  /\ (forall h, In h (map Transaction.hash (Blockchain.uniqueByHash [] txs))
                <-> In h (map Transaction.hash txs))
  /\ Blockchain.uniqueByHash [] txs `sublist_of` txs
  /\ (forall before tx after,
        txs = before ++ tx :: after ->
        ~ In (Transaction.hash tx) (map Transaction.hash before) ->
        In tx (Blockchain.uniqueByHash [] txs)).
Proof.
  split; [apply uniqueByHash_NoDup|]. split; [|split].
  - intros h. rewrite uniqueByHash_hashes. simpl. tauto.
  - apply uniqueByHash_sublist.
  - intros before tx after -> Fresh. apply uniqueByHash_first; auto.
Qed.

(** ** Addresses *)

Lemma round_length (st : list Z) (kw : Z * Z) :
  length (Sha256.round st kw) = length st.
Proof.
  unfold Sha256.round.
  destruct st as [|a [|b [|c [|d [|e [|f [|g [|h [|i rest]]]]]]]]]; reflexivity.
Qed.

Lemma rounds_length (kws : list (Z * Z)) (st : list Z) :
  length (fold_left Sha256.round kws st) = length st.
Proof.
  revert st. induction kws as [|kw kws IH]; intros st; [reflexivity|].
  cbn [fold_left]. rewrite IH. apply round_length.
Qed.

Lemma compress_length (st block : list Z) :
  length (Sha256.compress st block) = length st.
Proof.
  unfold Sha256.compress. cbv zeta.
  rewrite length_map, length_combine, rounds_length. lia.
Qed.

Lemma blocks_length (n : nat) (st bytes : list Z) :
  length (Sha256.blocks n st bytes) = length st.
Proof.
  revert st bytes. induction n as [|n IH]; intros st bytes; [reflexivity|].
  cbn [Sha256.blocks]. destruct bytes; [reflexivity|].
  rewrite IH. apply compress_length.
Qed.

Lemma bigEndian_length (n : nat) (x : Z) : length (Sha256.bigEndian n x) = n.
Proof. unfold Sha256.bigEndian. rewrite length_map, length_rev, length_seq. reflexivity. Qed.

Lemma flat_map_bigEndian_length (n : nat) (words : list Z) :
  length (flat_map (Sha256.bigEndian n) words) = (n * length words)%nat.
Proof.
  induction words as [|w words IH]; cbn [flat_map length]; [lia|].
  rewrite length_app, bigEndian_length, IH. lia.
Qed.

Lemma digest_length (msg : list Z) : length (Sha256.digest msg) = 32%nat.
Proof.
  unfold Sha256.digest. cbv zeta.
  rewrite flat_map_bigEndian_length, blocks_length. reflexivity.
Qed.

Lemma hexOfBytes_length (bytes : list Z) :
  String.length (Sha256.hexOfBytes bytes) = (2 * length bytes)%nat.
Proof.
  induction bytes as [|b bytes IH]; [reflexivity|].
  cbn [Sha256.hexOfBytes String.length length]. rewrite IH. lia.
Qed.

Lemma substring_length (n : nat) (s : string) :
  (n <= String.length s)%nat -> String.length (String.substring 0 n s) = n.
Proof.
  revert s. induction n as [|n IH]; intros s Len.
  - destruct s; reflexivity.
  - destruct s as [|c s]; [simpl in Len; lia|].
    cbn [String.substring String.length]. rewrite IH; [reflexivity|].
    simpl in Len. lia.
Qed.

(** X4. A SHA-256 digest in hexadecimal has 64 characters, whatever was
    hashed, and the address [createNewWallet] derives from a public key has
    30 characters, whatever the public key (even one that is not
    hexadecimal). *)
Theorem shortAddress_length (publicKey message : string) :
  String.length (Sha256.sha256 message) = 64%nat
  /\ String.length (Wallet.shortAddress publicKey) = 30%nat.
Proof.
  split.
  - unfold Sha256.sha256. rewrite hexOfBytes_length, digest_length. reflexivity.
  - unfold Wallet.shortAddress, substring0, Sha256.sha256OfHex.
    apply substring_length. rewrite hexOfBytes_length, digest_length.
    change (Z.to_nat 30) with 30%nat. lia.
Qed.
